(** * abstract.shorter.py: batch extraction of compact policy summaries

    A shallow embedding of [a4a/client/react-demo/public/abstract.shorter.py].
    The script globs [premera_policies_abstracted/*.json], loads every match
    with [json.load], strips three keys from each treatment and indication,
    prints one compact line per file and finally saves the collected lines to
    [policies_compact.txt].

    Conventions of the embedding:
    - a Python [str] is a Rocq [string], character by character; [len] is
      [String.length];
    - a value returned by [json.load] is a [json]; an object keeps the order
      of its members, as a Python [dict] does;
    - an exception is a value of [exn], and code that may raise returns a
      [result];
    - [print] appends one entry (the text without the final newline) to the
      console, which is a list of strings. The console is taken to have the
      characters of the script's own words, of the file names and of the
      exception texts, so that [print] of a line made of these succeeds;
      [print(compact_output)], whose line holds text of the document, raises
      when the console lacks one of its characters;
    - [open], every [write] and the closing of the output file may raise, as
      the environment decides;
    - paths follow [posixpath]. *)

From Stdlib Require Import String Ascii List ZArith Lia Bool.
From Stdlib Require Import DecimalString SpecFloat.
Import ListNotations.

Local Open Scope list_scope.
Local Open Scope string_scope.

(** ** Python strings *)

Module PyStr.

(** [s.rfind(c)] for a one-character [c]: the highest index of [c] in [s],
    or [-1]. *)
Fixpoint rfind (c : ascii) (s : string) : Z :=
  match s with
  | EmptyString => (-1)%Z
  | String a rest =>
      let r := rfind c rest in
      if (0 <=? r)%Z then (r + 1)%Z
      else if Ascii.eqb a c then 0%Z else (-1)%Z
  end.

(** [s[i:]] for [0 <= i]. *)
Definition slice_from (i : Z) (s : string) : string :=
  substring (Z.to_nat i) (String.length s - Z.to_nat i) s.

(** [s[:i]] for [0 <= i]. *)
Definition slice_to (i : Z) (s : string) : string :=
  substring 0 (Z.to_nat i) s.

(** [s[i:j]] for [0 <= i]. *)
Definition slice (i j : Z) (s : string) : string :=
  substring (Z.to_nat i) (Z.to_nat j - Z.to_nat i) s.

(** [s.startswith(p)]. *)
Definition startswith (p s : string) : bool := prefix p s.

(** [s.endswith(p)]. *)
Definition endswith (p s : string) : bool :=
  (String.length p <=? String.length s)%nat
  && String.eqb (substring (String.length s - String.length p) (String.length p) s) p.

(** [c * n] for a one-character string [c]. *)
Fixpoint times (c : ascii) (n : nat) : string :=
  match n with
  | O => EmptyString
  | S k => String c (times c k)
  end.

(** [str(n)] for a non-negative [int]: its decimal digits. *)
Definition of_nat (n : nat) : string := NilZero.string_of_uint (Nat.to_uint n).

(** A character of ASCII: every encoding of a console has it. *)
Definition is_7bit (c : ascii) : bool :=
  match c with
  | Ascii _ _ _ _ _ _ _ high => negb high
  end.

(** Every character of [s] passes [ok]. *)
Fixpoint all_pass (ok : ascii -> bool) (s : string) : bool :=
  match s with
  | EmptyString => true
  | String a rest => ok a && all_pass ok rest
  end.

(** Every character of [s] is [c]. *)
Fixpoint all_chars (c : ascii) (s : string) : bool :=
  match s with
  | EmptyString => true
  | String a rest => Ascii.eqb a c && all_chars c rest
  end.

End PyStr.

(** ** posixpath *)

Module PosixPath.

(** [os.path.join(a, b)] of two components. *)
Definition join (a b : string) : string :=
  if PyStr.startswith "/" b then b
  else if String.eqb a "" || PyStr.endswith "/" a then a ++ b
  else a ++ "/" ++ b.

(** [os.path.basename(p)]: [i = p.rfind('/') + 1; return p[i:]]. *)
Definition basename (p : string) : string :=
  let i := (PyStr.rfind "/" p + 1)%Z in
  PyStr.slice_from i p.

(** [os.path.splitext(p)]: split at the last dot of the last component,
    unless that component has only dots before it. *)
Definition splitext (p : string) : string * string :=
  let sepIndex := PyStr.rfind "/" p in
  let dotIndex := PyStr.rfind "." p in
  if (sepIndex <? dotIndex)%Z then
    if PyStr.all_chars "." (PyStr.slice (sepIndex + 1) dotIndex p)
    then (p, "")
    else (PyStr.slice_to dotIndex p, PyStr.slice_from dotIndex p)
  else (p, "").

End PosixPath.

(** ** Values of [json.load], exceptions, results *)

(** What [json.load] returns: [None], a [bool], an [int], a [float], a [str],
    a [list] or a [dict]. *)
#[warnings="-register-all"]
Inductive json : Type :=
| JNull
| JBool (b : bool)
| JInt (n : Z)
| JFloat (f : spec_float)
| JStr (s : string)
| JArr (items : list json)
| JObj (members : list (string * json)).

Definition is_dict (v : json) : bool :=
  match v with JObj _ => true | _ => false end.

Definition is_list (v : json) : bool :=
  match v with JArr _ => true | _ => false end.

(** The exceptions of a run. The first three come from the file system and
    [json.load] and carry their [str()]; the others are raised by the
    operations of the script itself, the last one by [print] of a text the
    console cannot encode. *)
Inductive exn : Type :=
| JSONDecodeError (msg : string)
| FileNotFoundError
| OtherError (msg : string)
| AttributeError (obj : json) (attr : string)
| PopArgumentsError (obj : json)
| JoinItemError (index : nat) (item : json)
| UnicodeEncodeError (text : string).

Inductive result (A : Type) : Type :=
| Ok (a : A)
| Raise (e : exn).

Arguments Ok {A} a.
Arguments Raise {A} e.

Definition bind {A B : Type} (c : result A) (k : A -> result B) : result B :=
  match c with
  | Ok a => k a
  | Raise e => Raise e
  end.

Notation "x <- c ;; k" := (bind c (fun x => k))
  (at level 61, c at next level, right associativity).

(** ** Python dicts *)

Module PyDict.

Definition t : Type := list (string * json).

(** The value stored under [key], if any. *)
Fixpoint lookup (key : string) (d : t) : option json :=
  match d with
  | [] => None
  | (k, v) :: rest => if String.eqb key k then Some v else lookup key rest
  end.

(** [d.get(key, default)]. *)
Definition get (key : string) (default : json) (d : t) : json :=
  match lookup key d with
  | Some v => v
  | None => default
  end.

(** [d] after [d.pop(key, None)]: [key] is gone, nothing else changes, and
    an absent [key] is no error. *)
Fixpoint pop (key : string) (d : t) : t :=
  match d with
  | [] => []
  | (k, v) :: rest =>
      if String.eqb key k then pop key rest else (k, v) :: pop key rest
  end.

End PyDict.

(** [obj.get(key, default)]: only a [dict] has [get]. *)
Definition py_get (obj : json) (key : string) (default : json) : result json :=
  match obj with
  | JObj d => Ok (PyDict.get key default d)
  | _ => Raise (AttributeError obj "get")
  end.

(** [obj] after [obj.pop(key, None)]. A [dict] drops the key; [list.pop]
    takes at most one argument; nothing else has [pop]. *)
Definition py_pop (obj : json) (key : string) : result json :=
  match obj with
  | JObj d => Ok (JObj (PyDict.pop key d))
  | JArr _ => Raise (PopArgumentsError obj)
  | _ => Raise (AttributeError obj "pop")
  end.

(** The items of [sep.join(items)]: the first item that is not a [str]
    raises, naming its index. *)
Fixpoint join_items (index : nat) (items : list json) : result (list string) :=
  match items with
  | [] => Ok []
  | JStr s :: rest =>
      strs <- join_items (S index) rest ;;
      Ok (s :: strs)
  | item :: _ => Raise (JoinItemError index item)
  end.

(** [sep.join(items)]. *)
Definition py_join (sep : string) (items : list json) : result string :=
  strs <- join_items 0 items ;;
  Ok (String.concat sep strs).

(** [for x in l: f(x)] where [f] changes [x] in place: the changed list, or
    the first exception. *)
Fixpoint for_each (f : json -> result json) (l : list json) : result (list json) :=
  match l with
  | [] => Ok []
  | x :: rest =>
      x' <- f x ;;
      rest' <- for_each f rest ;;
      Ok (x' :: rest')
  end.

(** ** The file system *)

(** What [os.scandir] finds at the source directory. *)
Inductive dir_state : Type :=
| DirMissing
| DirUnreadable
| DirEntries (names : list string).

(** The part of the environment the script meets: the source directory;
    what [open] and [json.load] give for each path; whether the output file
    can be opened for writing; what [outfile.write(text)] does once [sofar]
    has been written; what closing the file does after [sofar]; how much of
    [sofar] the file holds when the run dies between opening and closing it
    (a buffered file may hold less than was written); and the content of the
    output file before the run ([None]: there is no such file). *)
Record world : Type := {
  source_dir : dir_state;
  load : string -> result json;
  open_output : result unit;
  write_output : string -> string -> result unit;
  close_output : string -> result unit;
  truncated : string -> string;
  output_before : option string
}.

Definition source_directory : string := "premera_policies_abstracted".

Definition file_pattern : string := PosixPath.join source_directory "*.json".

Definition output_filename : string := "policies_compact.txt".

(** [fnmatch] of a directory entry against [*.json], as [glob] applies it:
    the name ends in [.json], and a name that starts with a dot is hidden
    from a pattern that does not. *)
Definition matches_pattern (name : string) : bool :=
  negb (PyStr.startswith "." name) && PyStr.endswith ".json" name.

(** Line 14, [glob.glob(file_pattern)]: the matching entries in directory
    order, each joined to the directory. [glob] swallows the [OSError] of a
    directory that cannot be listed and yields nothing for it. *)
Definition glob (d : dir_state) : list string :=
  match d with
  | DirEntries names =>
      map (PosixPath.join source_directory) (filter matches_pattern names)
  | DirMissing | DirUnreadable => []
  end.

(** ** The script *)

(** [extracted_info]: the record built for a processed file. *)
Record extracted : Type := {
  policyTitle : json;
  sourceFilename : string;
  treatments : list json;
  indications : list json
}.

(** How one file ends: skipped by an [except] clause or the root check, or
    processed into [extracted_info] and [compact_output]. *)
Inductive outcome : Type :=
| Skipped
| Processed (extracted_info : extracted) (compact_output : string).

(** How the process ends: normally (also through [exit()]), or by an
    exception nobody catches. *)
Inductive exit_status : Type :=
| ExitSuccess
| Fatal (e : exn).

(** What a run leaves behind: the console, the content of
    [policies_compact.txt] ([None]: no such file) and the exit status. *)
Record run_result : Type := {
  console : list string;
  output_file : option string;
  status : exit_status
}.

Section Script.

(** The interpreter's own texts: [str(v)] of a value that is not a [str],
    and [str(e)] of an exception the script's operations raise. *)
Variable str_value : json -> string.
Variable str_raised : exn -> string.

(** The console: which characters outside ASCII its encoding has. *)
Variable console_encodes : ascii -> bool.

(** [print(text)] does not raise: the console has every character. *)
Definition console_accepts (text : string) : bool :=
  PyStr.all_pass (fun c => PyStr.is_7bit c || console_encodes c) text.

(** Line 83, [print(compact_output)]. *)
Definition print_compact (compact_output : string) : result unit :=
  if console_accepts compact_output then Ok tt
  else Raise (UnicodeEncodeError compact_output).

(** [{v}] in an f-string. *)
Definition format_value (v : json) : string :=
  match v with
  | JStr s => s
  | _ => str_value v
  end.

(** [{e}] in an f-string. *)
Definition format_exn (e : exn) : string :=
  match e with
  | JSONDecodeError msg => msg
  | OtherError msg => msg
  | _ => str_raised e
  end.

Definition processing_line (base_filename : string) : string :=
  "--- Processing: " ++ base_filename ++ " ---".

Definition separator_line (base_filename : string) : string :=
  PyStr.times "-" (String.length base_filename + 20).

Definition not_object_line (base_filename : string) : string :=
  "Skipping " ++ base_filename ++ ": Root element is not a JSON object (dictionary).".

Definition warning_line (field base_filename : string) : string :=
  "Warning: '" ++ field ++ "' in " ++ base_filename ++ " is not a list. Using empty list.".

Definition unexpected_line (base_filename : string) (e : exn) : string :=
  "Skipping " ++ base_filename ++ ": An unexpected error occurred - " ++ format_exn e.

(** Lines 88-96: the three [except] clauses of the loop body. *)
Definition except_line (base_filename : string) (e : exn) : string :=
  match e with
  | JSONDecodeError _ =>
      "Skipping " ++ base_filename ++ ": Invalid JSON structure - " ++ format_exn e
  | FileNotFoundError =>
      "Skipping " ++ base_filename ++ ": File not found."
  | _ => unexpected_line base_filename e
  end.

(** Lines 46-55, [data.get(field, [])] followed by the [isinstance(_, list)]
    check: the warning printed, if any, and the list used from there on. *)
Definition get_list (field base_filename : string) (data : PyDict.t)
  : list string * list json :=
  match PyDict.get field (JArr []) data with
  | JArr items => ([], items)
  | _ => ([warning_line field base_filename], [])
  end.

(** Lines 58-60 and 62-64: the three [pop] calls on one entry. *)
Definition strip_entry (t : json) : result json :=
  t <- py_pop t "keywords" ;;
  t <- py_pop t "codes" ;;
  py_pop t "id".

(** Lines 75-76: [[t.get('name', 'N/A') for t in entries]]. *)
Fixpoint names_of (entries : list json) : result (list json) :=
  match entries with
  | [] => Ok []
  | t :: rest =>
      name <- py_get t "name" (JStr "N/A") ;;
      names <- names_of rest ;;
      Ok (name :: names)
  end.

(** Line 82: the f-string of [compact_output]. *)
Definition compact_line (file_stem : string) (title : json)
    (treatment_names indication_names : list json) : result string :=
  ts <- py_join ", " treatment_names ;;
  ins <- py_join ", " indication_names ;;
  Ok (file_stem ++ ": " ++ format_value title
        ++ " Treatments: [" ++ ts ++ "]; Indications: [" ++ ins ++ "]").

(** Lines 43-82, the [try] block from the title down, for a root that is a
    [dict]: what it prints before [compact_output], and what it ends with. *)
Definition extract (base_filename : string) (data : PyDict.t)
  : list string * result (extracted * string) :=
  let policy_metadata := PyDict.get "policyMetadata" (JObj []) data in
  match py_get policy_metadata "policyTitle" (JStr "N/A") with
  | Raise e => ([], Raise e)
  | Ok title =>
      let '(warned_t, treatments) := get_list "treatments" base_filename data in
      let '(warned_i, indications) := get_list "indications" base_filename data in
      ((warned_t ++ warned_i)%list,
       treatments <- for_each strip_entry treatments ;;
       indications <- for_each strip_entry indications ;;
       let extracted_info :=
         {| policyTitle := title;
            sourceFilename := base_filename;
            treatments := treatments;
            indications := indications |} in
       treatment_names <- names_of treatments ;;
       indication_names <- names_of indications ;;
       let file_stem := fst (PosixPath.splitext base_filename) in
       compact_output <- compact_line file_stem title treatment_names indication_names ;;
       Ok (extracted_info, compact_output))
  end.

(** Lines 26-98, one turn of the loop: what it prints and how the file ends.
    [loaded] is what [open] and [json.load] gave for [file_path] (lines
    31-33). An exception of [print(compact_output)] is caught like those of
    the extraction, and the line is not kept. *)
Definition process_file (file_path : string) (loaded : result json)
  : list string * outcome :=
  let base_filename := PosixPath.basename file_path in
  let first := processing_line base_filename in
  let last := separator_line base_filename in
  match loaded with
  | Raise e => ([first; except_line base_filename e; last], Skipped)
  | Ok (JObj data) =>
      match extract base_filename data with
      | (printed, Ok (extracted_info, compact_output)) =>
          match print_compact compact_output with
          | Ok _ =>
              ((first :: printed) ++ [compact_output; last],
               Processed extracted_info compact_output)%list
          | Raise e =>
              ((first :: printed) ++ [except_line base_filename e; last],
               Skipped)%list
          end
      | (printed, Raise e) =>
          ((first :: printed) ++ [except_line base_filename e; last], Skipped)%list
      end
  | Ok _ => ([first; not_object_line base_filename; last], Skipped)
  end.

(** The state the loop threads: the console so far and
    [all_extracted_data]. *)
Definition loop_state : Type := (list string * list string)%type.

Definition loop_body (w : world) (st : loop_state) (file_path : string)
  : loop_state :=
  let '(printed, all_extracted_data) := st in
  match process_file file_path (load w file_path) with
  | (log, Processed _ compact_output) =>
      ((printed ++ log)%list, (all_extracted_data ++ [compact_output])%list)
  | (log, Skipped) => ((printed ++ log)%list, all_extracted_data)
  end.

(** [for file_path in json_files: ...]. *)
Definition process_files (w : world) (json_files : list string) (st : loop_state)
  : loop_state :=
  fold_left (loop_body w) json_files st.

Definition no_files_line : string :=
  "No files found matching pattern: " ++ file_pattern.

Definition found_line (n : nat) : string :=
  "Found " ++ PyStr.of_nat n ++ " files matching pattern. Processing..." ++ String "010" "".

Definition complete_line (n : nat) : string :=
  String "010" ("Processing complete. Extracted data from " ++ PyStr.of_nat n ++ " valid files.").

Definition saved_line : string :=
  String "010" ("Compact data saved to " ++ output_filename).

(** The text of all the lines, each with its newline: what lines 109-110
    write when nothing fails. *)
Definition written (all_extracted_data : list string) : string :=
  String.concat "" (map (fun line => line ++ String "010" "") all_extracted_data).

(** Lines 109-110, the loop of writes: the text the file has accepted, and
    the exception that stopped the loop, if any. *)
Fixpoint write_lines (w : world) (sofar : string) (all_extracted_data : list string)
  : string * result unit :=
  match all_extracted_data with
  | [] => (sofar, Ok tt)
  | line :: rest =>
      match write_output w sofar (line ++ String "010" "") with
      | Ok _ => write_lines w (sofar ++ line ++ String "010" "") rest
      | Raise e => (sofar, Raise e)
      end
  end.

(** Lines 107-110, the [with] block once the file is open: the writes, then
    the closing of the file. The block closes the file also when a write
    has raised, and an exception of the closing takes the place of that of
    the write. *)
Definition save (w : world) (all_extracted_data : list string)
  : string * result unit :=
  match write_lines w "" all_extracted_data with
  | (sofar, Ok _) => (sofar, close_output w sofar)
  | (sofar, Raise e) =>
      match close_output w sofar with
      | Ok _ => (sofar, Raise e)
      | Raise e' => (sofar, Raise e')
      end
  end.

(** Lines 16-111: the script from [if not json_files] on. *)
Definition script (w : world) (json_files : list string) : run_result :=
  match json_files with
  | [] =>
      {| console := [no_files_line];
         output_file := output_before w;
         status := ExitSuccess |}
  | _ :: _ =>
      let '(printed, all_extracted_data) :=
        process_files w json_files ([found_line (List.length json_files)], []) in
      let printed := (printed ++ [complete_line (List.length all_extracted_data)])%list in
      match all_extracted_data with
      | [] =>
          {| console := printed;
             output_file := output_before w;
             status := ExitSuccess |}
      | _ :: _ =>
          match open_output w with
          | Raise e =>
              {| console := printed;
                 output_file := output_before w;
                 status := Fatal e |}
          | Ok _ =>
              match save w all_extracted_data with
              | (sofar, Raise e) =>
                  {| console := printed;
                     output_file := Some (truncated w sofar);
                     status := Fatal e |}
              | (sofar, Ok _) =>
                  {| console := (printed ++ [saved_line])%list;
                     output_file := Some sofar;
                     status := ExitSuccess |}
              end
          end
      end
  end.

(** The whole run. *)
Definition run (w : world) : run_result :=
  script w (glob (source_dir w)).

(** ** Notions the statements use *)

(** One entry after the three [pop] calls. *)
Definition strip_dict (d : PyDict.t) : PyDict.t :=
  PyDict.pop "id" (PyDict.pop "codes" (PyDict.pop "keywords" d)).

Definition stripped (t : json) : json :=
  match t with
  | JObj d => JObj (strip_dict d)
  | _ => t
  end.

(** An entry the summary can name: an object whose [name] is a string or
    absent. *)
Definition entry_ok (t : json) : bool :=
  match t with
  | JObj d =>
      match PyDict.lookup "name" d with
      | Some (JStr _) | None => true
      | Some _ => false
      end
  | _ => false
  end.

(** The name such an entry is listed under. *)
Definition name_of (t : json) : string :=
  match t with
  | JObj d =>
      match PyDict.lookup "name" d with
      | Some (JStr s) => s
      | _ => "N/A"
      end
  | _ => "N/A"
  end.

(** What [t.get('name', 'N/A')] gives for an object. *)
Definition name_value (t : json) : json :=
  match t with
  | JObj d => PyDict.get "name" (JStr "N/A") d
  | _ => JStr "N/A"
  end.

(** [title]: the [policyTitle] of [policyMetadata], each with its default. *)
Definition title_of (data : PyDict.t) : result json :=
  py_get (PyDict.get "policyMetadata" (JObj []) data) "policyTitle" (JStr "N/A").

(** The list a field stands for after the [isinstance] check. *)
Definition entries_of (field : string) (data : PyDict.t) : list json :=
  match PyDict.get field (JArr []) data with
  | JArr items => items
  | _ => []
  end.

(** The warnings of the two [isinstance] checks. *)
Definition warnings_of (base_filename : string) (data : PyDict.t) : list string :=
  (fst (get_list "treatments" base_filename data)
   ++ fst (get_list "indications" base_filename data))%list.

(** The compact line of a title and two lists of nameable entries. *)
Definition summary_line (base_filename : string) (title : json)
    (ts ins : list json) : string :=
  fst (PosixPath.splitext base_filename) ++ ": " ++ format_value title
    ++ " Treatments: [" ++ String.concat ", " (map name_of ts)
    ++ "]; Indications: [" ++ String.concat ", " (map name_of ins) ++ "]".

(** The exceptions the generic [except Exception] clause reports. *)
Definition unexpected (e : exn) : bool :=
  match e with
  | JSONDecodeError _ | FileNotFoundError => false
  | _ => true
  end.

(** A line of the form [Skipping <file>: ...]. *)
Definition skip_diagnostic (base_filename line : string) : bool :=
  PyStr.startswith ("Skipping " ++ base_filename ++ ": ") line.

Definition outcome_of (w : world) (file_path : string) : outcome :=
  snd (process_file file_path (load w file_path)).

Definition log_of (w : world) (file_path : string) : list string :=
  fst (process_file file_path (load w file_path)).

Definition is_skipped (o : outcome) : bool :=
  match o with Skipped => true | Processed _ _ => false end.

(** The summary line a file contributes: one when processed, none when
    skipped. *)
Definition kept (o : outcome) : list string :=
  match o with
  | Processed _ compact_output => [compact_output]
  | Skipped => []
  end.

(** The summary lines of the processed files, in discovery order. *)
Definition collected (w : world) (json_files : list string) : list string :=
  flat_map (fun p => kept (outcome_of w p)) json_files.

(** The number of files that were skipped with a diagnostic. *)
Definition skipped_count (w : world) (json_files : list string) : nat :=
  List.length (filter (fun p => is_skipped (outcome_of w p)) json_files).

(** Every write of the lines, in turn, and the closing of the file after
    them succeed. *)
Definition output_accepts (w : world) (lines : list string) : Prop :=
  (forall (before : list string) (line : string) (after : list string),
      lines = (before ++ line :: after)%list ->
      write_output w (written before) (line ++ String "010" "") = Ok tt)
  /\ close_output w (written lines) = Ok tt.

(** The output file fails with [e] once [sofar] has been written: a write
    after the lines [before] raises, and [e] is the exception of the closing
    that follows if it raises too, else that of the write; or all writes
    succeed and the closing raises [e]. *)
Definition output_fails (w : world) (lines : list string) (sofar : string) (e : exn)
  : Prop :=
  (exists (before : list string) (line : string) (after : list string)
          (raised : exn),
      lines = (before ++ line :: after)%list
      /\ sofar = written before
      /\ (forall (earlier : list string) (l : string) (later : list string),
            before = (earlier ++ l :: later)%list ->
            write_output w (written earlier) (l ++ String "010" "") = Ok tt)
      /\ write_output w (written before) (line ++ String "010" "") = Raise raised
      /\ (close_output w (written before) = Raise e
          \/ (close_output w (written before) = Ok tt /\ e = raised)))
  \/ (sofar = written lines
      /\ (forall (before : list string) (line : string) (after : list string),
            lines = (before ++ line :: after)%list ->
            write_output w (written before) (line ++ String "010" "") = Ok tt)
      /\ close_output w (written lines) = Raise e).

(** ** The sample document of the specification *)

Definition sample_json : json :=
  JObj [("policyMetadata", JObj [("policyTitle", JStr "Test Policy")]);
        ("treatments", JArr [JObj [("name", JStr "Surgery"); ("id", JStr "X1")]]);
        ("indications", JArr [JObj [("name", JStr "Diabetes")]])].

Definition sample_path : string := PosixPath.join source_directory "sample.json".

Definition sample_line : string :=
  "sample: Test Policy Treatments: [Surgery]; Indications: [Diabetes]".

(** ** Worlds and documents for the examples *)

(** The type names CPython shows in its messages. *)
Definition type_name (v : json) : string :=
  match v with
  | JNull => "NoneType"
  | JBool _ => "bool"
  | JInt _ => "int"
  | JFloat _ => "float"
  | JStr _ => "str"
  | JArr _ => "list"
  | JObj _ => "dict"
  end.

(** A console whose encoding is ASCII. *)
Definition ascii_console (c : ascii) : bool := false.

(** The index of the first character of [text] outside ASCII, counted from
    [index], and how many such characters follow one another there. *)
Fixpoint unencodable_run (index : nat) (text : string) : option (nat * nat) :=
  match text with
  | EmptyString => None
  | String c rest =>
      if PyStr.is_7bit c then unencodable_run (S index) rest
      else
        match unencodable_run (S index) rest with
        | Some (start, len) =>
            if Nat.eqb start (S index) then Some (index, S len) else Some (index, 1)
        | None => Some (index, 1)
        end
  end.

Definition hex_digit (n : nat) : ascii :=
  match n with
  | 0 => "0" | 1 => "1" | 2 => "2" | 3 => "3" | 4 => "4" | 5 => "5"
  | 6 => "6" | 7 => "7" | 8 => "8" | 9 => "9" | 10 => "a" | 11 => "b"
  | 12 => "c" | 13 => "d" | 14 => "e" | _ => "f"
  end%char.

(** The character of [text] at [index], written [\xhh]. *)
Definition escaped_char (index : nat) (text : string) : string :=
  match String.get index text with
  | Some c =>
      String "\" (String "x"
        (String (hex_digit (nat_of_ascii c / 16))
           (String (hex_digit (nat_of_ascii c mod 16)) "")))
  | None => ""
  end.

(** [str(e)] as CPython 3 words it, the console being [ascii_console]. *)
Definition cpython_raised (e : exn) : string :=
  match e with
  | JSONDecodeError msg | OtherError msg => msg
  | FileNotFoundError => "[Errno 2] No such file or directory"
  | AttributeError obj attr =>
      "'" ++ type_name obj ++ "' object has no attribute '" ++ attr ++ "'"
  | PopArgumentsError _ => "pop expected at most 1 argument, got 2"
  | JoinItemError index item =>
      "sequence item " ++ PyStr.of_nat index ++ ": expected str instance, "
        ++ type_name item ++ " found"
  | UnicodeEncodeError text =>
      match unencodable_run 0 text with
      | Some (start, 1) =>
          "'ascii' codec can't encode character '" ++ escaped_char start text
            ++ "' in position " ++ PyStr.of_nat start
            ++ ": ordinal not in range(128)"
      | Some (start, len) =>
          "'ascii' codec can't encode characters in position "
            ++ PyStr.of_nat start ++ "-" ++ PyStr.of_nat (start + len - 1)
            ++ ": ordinal not in range(128)"
      | None => ""
      end
  end.

(** The examples hold string titles only, so none of them asks for the text
    of another value. *)
Definition unasked_value (v : json) : string := "".

(** A world whose directory holds the given names, every one of which loads
    as [doc]; once open, the output file takes every write. *)
Definition world_of (names : list string) (doc : result json)
    (opened : result unit) (before : option string) : world :=
  {| source_dir := DirEntries names;
     load := fun _ => doc;
     open_output := opened;
     write_output := fun _ _ => Ok tt;
     close_output := fun _ => Ok tt;
     truncated := fun sofar => sofar;
     output_before := before |}.

(** The source directory does not exist. *)
Definition missing_dir_world : world :=
  {| source_dir := DirMissing;
     load := fun _ => Raise FileNotFoundError;
     open_output := Ok tt;
     write_output := fun _ _ => Ok tt;
     close_output := fun _ => Ok tt;
     truncated := fun sofar => sofar;
     output_before := None |}.

(** [sample.json] alone, in a working directory that cannot be written. *)
Definition locked_world : world :=
  world_of ["sample.json"] (Ok sample_json)
    (Raise (OtherError "[Errno 13] Permission denied: 'policies_compact.txt'")) None.

(** [sample.json] alone, and an older output file in the way. *)
Definition sample_world : world :=
  world_of ["sample.json"] (Ok sample_json) (Ok tt) (Some "old").

(** [policyMetadata] is a string and [treatments] a number. *)
Definition bad_metadata_json : json :=
  JObj [("policyMetadata", JStr "x"); ("treatments", JInt 5)].

(** [treatments] is a number and [indications] holds a string. *)
Definition bad_indication_json : json :=
  JObj [("treatments", JInt 5); ("indications", JArr [JStr "x"])].


(** One file whose root is an array. *)
Definition array_root_world : world :=
  world_of ["list.json"] (Ok (JArr [JInt 1])) (Ok tt) None.

(** A directory with a text file and a hidden file, and nothing else. *)
Definition unmatched_world : world :=
  world_of ["notes.txt"; ".hidden.json"] (Ok sample_json) (Ok tt) (Some "old").

(** One file, whose [indications] holds a string. *)
Definition bad_indication_world : world :=
  world_of ["b.json"] (Ok bad_indication_json) (Ok tt) None.

(** ** Notions and examples of the further properties *)

(** The keys the script drops from an entry. *)
Definition verbose_key (key : string) : bool :=
  String.eqb "keywords" key || String.eqb "codes" key || String.eqb "id" key.

(** A file the loop kept a line for. *)
Definition processed (w : world) (file_path : string) : bool :=
  negb (is_skipped (outcome_of w file_path)).

(** A treatment without a name, and one with. *)
Definition nameless_json : json :=
  JObj [("treatments",
         JArr [JObj [("id", JStr "T1"); ("dose", JInt 2)];
               JObj [("name", JStr "Rest")]])].

(** An indication whose name is a number. *)
Definition numeric_name_json : json :=
  JObj [("indications", JArr [JObj [("name", JInt 7)]])].

(** One file that is not valid JSON, in a working directory that cannot be
    written. *)
Definition broken_json_world : world :=
  world_of ["bad.json"]
    (Raise (JSONDecodeError
              "Expecting property name enclosed in double quotes: line 1 column 2 (char 1)"))
    (Raise (OtherError "[Errno 13] Permission denied: 'policies_compact.txt'"))
    (Some "old").

(** A file that vanished after discovery, then [sample.json]. *)
Definition mixed_world : world :=
  {| source_dir := DirEntries ["gone.json"; "README.md"; "sample.json"];
     load := fun file_path =>
               if String.eqb file_path sample_path then Ok sample_json
               else Raise FileNotFoundError;
     open_output := Ok tt;
     write_output := fun _ _ => Ok tt;
     close_output := fun _ => Ok tt;
     truncated := fun sofar => sofar;
     output_before := None |}.

(** [sample.json] alone, and a disk with no room left: the file opens, the
    write is buffered, and the closing of the file fails and leaves it
    empty. *)
Definition full_disk_world : world :=
  {| source_dir := DirEntries ["sample.json"];
     load := fun _ => Ok sample_json;
     open_output := Ok tt;
     write_output := fun _ _ => Ok tt;
     close_output := fun _ => Raise (OtherError "[Errno 28] No space left on device");
     truncated := fun _ => "";
     output_before := Some "old" |}.


(** ** Dictionaries *)

Lemma lookup_pop_same (key : string) (d : PyDict.t) :
  PyDict.lookup key (PyDict.pop key d) = None.
Proof.
  induction d as [|[k v] rest IH]; simpl; [reflexivity|].
  destruct (String.eqb key k) eqn:E; simpl; [assumption|].
  now rewrite E.
Qed.

Lemma lookup_pop_other (key other : string) (d : PyDict.t) :
  key <> other ->
  PyDict.lookup other (PyDict.pop key d) = PyDict.lookup other d.
Proof.
  intros Hne.
  induction d as [|[k v] rest IH]; simpl; [reflexivity|].
  destruct (String.eqb key k) eqn:E; simpl.
  - apply String.eqb_eq in E; subst k.
    destruct (String.eqb other key) eqn:E'; [|assumption].
    apply String.eqb_eq in E'; congruence.
  - now rewrite IH.
Qed.

Lemma pop_absent (key : string) (d : PyDict.t) :
  PyDict.lookup key d = None -> PyDict.pop key d = d.
Proof.
  induction d as [|[k v] rest IH]; simpl; [reflexivity|].
  destruct (String.eqb key k); [discriminate|].
  intros H; now rewrite IH.
Qed.

Lemma pop_idempotent (key : string) (d : PyDict.t) :
  PyDict.pop key (PyDict.pop key d) = PyDict.pop key d.
Proof. apply pop_absent, lookup_pop_same. Qed.

Lemma strip_dict_lookup (d : PyDict.t) :
  PyDict.lookup "keywords" (strip_dict d) = None
  /\ PyDict.lookup "codes" (strip_dict d) = None
  /\ PyDict.lookup "id" (strip_dict d) = None.
Proof.
  unfold strip_dict; repeat split.
  - rewrite !lookup_pop_other by discriminate. apply lookup_pop_same.
  - rewrite lookup_pop_other by discriminate. apply lookup_pop_same.
  - apply lookup_pop_same.
Qed.

Lemma strip_dict_other (key : string) (d : PyDict.t) :
  key <> "keywords" -> key <> "codes" -> key <> "id" ->
  PyDict.lookup key (strip_dict d) = PyDict.lookup key d.
Proof.
  intros H1 H2 H3; unfold strip_dict.
  rewrite !lookup_pop_other by congruence. reflexivity.
Qed.

Lemma strip_dict_idempotent (d : PyDict.t) :
  strip_dict (strip_dict d) = strip_dict d.
Proof.
  destruct (strip_dict_lookup d) as (Hk & Hc & Hi).
  unfold strip_dict at 1.
  rewrite (pop_absent "keywords") by assumption.
  rewrite (pop_absent "codes") by assumption.
  now rewrite (pop_absent "id") by assumption.
Qed.

(** ** The steps of the extraction *)

Lemma entry_ok_is_dict (t : json) : entry_ok t = true -> is_dict t = true.
Proof. destruct t; simpl; congruence. Qed.

Lemma forallb_entry_ok_is_dict (l : list json) :
  forallb entry_ok l = true -> forallb is_dict l = true.
Proof.
  induction l as [|t rest IH]; simpl; [reflexivity|].
  intros H; apply andb_true_iff in H as [Ht Hrest].
  now rewrite (entry_ok_is_dict _ Ht), IH.
Qed.

Lemma strip_entry_dict (d : PyDict.t) :
  strip_entry (JObj d) = Ok (JObj (strip_dict d)).
Proof. reflexivity. Qed.

Lemma strip_entry_not_dict (t : json) :
  is_dict t = false ->
  exists e, strip_entry t = Raise e /\ unexpected e = true.
Proof.
  destruct t; simpl; try discriminate; intros _; eexists; split; reflexivity.
Qed.

Lemma for_each_strip_dicts (l : list json) :
  forallb is_dict l = true ->
  for_each strip_entry l = Ok (map stripped l).
Proof.
  induction l as [|t rest IH]; simpl; [reflexivity|].
  intros H; apply andb_true_iff in H as [Ht Hrest].
  destruct t; try discriminate.
  rewrite strip_entry_dict; simpl. now rewrite IH.
Qed.

Lemma for_each_strip_raises (l : list json) :
  forallb is_dict l = false ->
  exists e, for_each strip_entry l = Raise e /\ unexpected e = true.
Proof.
  induction l as [|t rest IH]; simpl; [discriminate|].
  destruct (is_dict t) eqn:Ht; simpl; intros H.
  - destruct t; try discriminate.
    rewrite strip_entry_dict; simpl.
    destruct (IH H) as (e & -> & He). now exists e.
  - destruct (strip_entry_not_dict t Ht) as (e & -> & He). now exists e.
Qed.

Lemma names_of_stripped (l : list json) :
  forallb is_dict l = true ->
  names_of (map stripped l) = Ok (map name_value l).
Proof.
  induction l as [|t rest IH]; simpl; [reflexivity|].
  intros H; apply andb_true_iff in H as [Ht Hrest].
  destruct t; try discriminate; simpl.
  rewrite (IH Hrest); simpl. unfold PyDict.get.
  now rewrite strip_dict_other by discriminate.
Qed.

Lemma join_items_named (index : nat) (l : list json) :
  forallb entry_ok l = true ->
  join_items index (map name_value l) = Ok (map name_of l).
Proof.
  revert index; induction l as [|t rest IH]; intros index; simpl; [reflexivity|].
  intros H; apply andb_true_iff in H as [Ht Hrest].
  destruct t; try discriminate; simpl in *. unfold PyDict.get.
  destruct (PyDict.lookup "name" members) as [[]|]; try discriminate;
    now rewrite (IH _ Hrest).
Qed.

Lemma join_items_raises (index : nat) (l : list json) :
  forallb is_dict l = true ->
  forallb entry_ok l = false ->
  exists e, join_items index (map name_value l) = Raise e /\ unexpected e = true.
Proof.
  revert index; induction l as [|t rest IH]; intros index; simpl; [discriminate|].
  intros Hd; apply andb_true_iff in Hd as [Ht Hrest].
  destruct t; try discriminate; simpl. unfold PyDict.get.
  destruct (PyDict.lookup "name" members) as [[]|]; simpl; intros H;
    try (eexists; split; reflexivity);
    destruct (IH (S index) Hrest H) as (e & -> & He); now exists e.
Qed.

Lemma get_list_eq (field base_filename : string) (data : PyDict.t) :
  get_list field base_filename data
  = (fst (get_list field base_filename data), entries_of field data).
Proof.
  unfold get_list, entries_of.
  now destruct (PyDict.get field (JArr []) data).
Qed.

Lemma extract_bad_title (base_filename : string) (data : PyDict.t) (e : exn) :
  title_of data = Raise e ->
  extract base_filename data = ([], Raise e).
Proof. unfold title_of, extract; now intros ->. Qed.

Lemma extract_ok (base_filename : string) (data : PyDict.t) (title : json) :
  title_of data = Ok title ->
  forallb entry_ok (entries_of "treatments" data) = true ->
  forallb entry_ok (entries_of "indications" data) = true ->
  extract base_filename data
  = (warnings_of base_filename data,
     Ok ({| policyTitle := title;
            sourceFilename := base_filename;
            treatments := map stripped (entries_of "treatments" data);
            indications := map stripped (entries_of "indications" data) |},
         summary_line base_filename title
           (entries_of "treatments" data) (entries_of "indications" data))).
Proof.
  intros Ht Hts Hins.
  unfold title_of in Ht. unfold extract, warnings_of. rewrite Ht.
  rewrite (get_list_eq "treatments"), (get_list_eq "indications"); simpl fst.
  f_equal.
  rewrite !for_each_strip_dicts by now apply forallb_entry_ok_is_dict.
  simpl bind.
  rewrite !names_of_stripped by now apply forallb_entry_ok_is_dict.
  simpl bind. unfold compact_line, py_join.
  now rewrite !join_items_named by assumption.
Qed.

Lemma extract_bad_entries (base_filename : string) (data : PyDict.t) (title : json) :
  title_of data = Ok title ->
  forallb entry_ok (entries_of "treatments" data)
    && forallb entry_ok (entries_of "indications" data) = false ->
  exists e,
    extract base_filename data = (warnings_of base_filename data, Raise e)
    /\ unexpected e = true.
Proof.
  intros Ht Hbad.
  unfold title_of in Ht. unfold extract, warnings_of. rewrite Ht.
  rewrite (get_list_eq "treatments"), (get_list_eq "indications"); simpl fst.
  set (ts := entries_of "treatments" data) in *.
  set (ins := entries_of "indications" data) in *.
  destruct (forallb is_dict ts) eqn:Dts.
  2:{ destruct (for_each_strip_raises ts Dts) as (e & -> & He). now exists e. }
  rewrite (for_each_strip_dicts ts Dts); simpl bind.
  destruct (forallb is_dict ins) eqn:Dins.
  2:{ destruct (for_each_strip_raises ins Dins) as (e & -> & He). now exists e. }
  rewrite (for_each_strip_dicts ins Dins); simpl bind.
  rewrite (names_of_stripped ts Dts), (names_of_stripped ins Dins); simpl bind.
  unfold compact_line, py_join.
  destruct (forallb entry_ok ts) eqn:Ots.
  - simpl in Hbad. rewrite (join_items_named 0 ts Ots); simpl bind.
    destruct (join_items_raises 0 ins Dins Hbad) as (e & -> & He). now exists e.
  - destruct (join_items_raises 0 ts Dts Ots) as (e & -> & He). now exists e.
Qed.

(** Whatever [extract] raises is reported by the generic clause. *)
Lemma extract_raises_unexpected (base_filename : string) (data : PyDict.t)
    (printed : list string) (e : exn) :
  extract base_filename data = (printed, Raise e) -> unexpected e = true.
Proof.
  intros H.
  destruct (title_of data) as [title|e0] eqn:Ht.
  - destruct (forallb entry_ok (entries_of "treatments" data)
              && forallb entry_ok (entries_of "indications" data)) eqn:Hok.
    + apply andb_true_iff in Hok as [H1 H2].
      rewrite (extract_ok _ _ _ Ht H1 H2) in H. discriminate.
    + destruct (extract_bad_entries base_filename _ _ Ht Hok) as (e1 & He1 & Hu).
      rewrite He1 in H. now inversion H; subst.
  - rewrite (extract_bad_title _ _ _ Ht) in H. inversion H; subst.
    unfold title_of, py_get in Ht.
    destruct (PyDict.get "policyMetadata" (JObj []) data); inversion Ht; reflexivity.
Qed.

Lemma except_line_unexpected (base_filename : string) (e : exn) :
  unexpected e = true ->
  except_line base_filename e = unexpected_line base_filename e.
Proof. destruct e; simpl; congruence. Qed.

(** ** Strings *)

Lemma append_assoc (a b c : string) : (a ++ b) ++ c = a ++ (b ++ c).
Proof. induction a as [|x a IH]; simpl; [reflexivity|now rewrite IH]. Qed.

Lemma startswith_append (a b : string) : PyStr.startswith a (a ++ b) = true.
Proof.
  unfold PyStr.startswith.
  induction a as [|x a IH]; simpl; [now destruct b|].
  destruct (ascii_dec x x); [assumption|congruence].
Qed.

Lemma skip_diagnostic_intro (base_filename rest : string) :
  skip_diagnostic base_filename ("Skipping " ++ base_filename ++ ": " ++ rest) = true.
Proof.
  unfold skip_diagnostic.
  replace ("Skipping " ++ base_filename ++ ": " ++ rest)
    with (("Skipping " ++ base_filename ++ ": ") ++ rest).
  - apply startswith_append.
  - now rewrite !append_assoc.
Qed.

Lemma except_line_diagnostic (base_filename : string) (e : exn) :
  skip_diagnostic base_filename (except_line base_filename e) = true.
Proof.
  destruct e; simpl; unfold unexpected_line;
    exact (skip_diagnostic_intro base_filename _).
Qed.

Lemma not_object_line_diagnostic (base_filename : string) :
  skip_diagnostic base_filename (not_object_line base_filename) = true.
Proof. exact (skip_diagnostic_intro base_filename _). Qed.

(** ** One file *)

(** A file is either processed, and then its log ends with the compact line
    and the separator, or skipped, and then with a diagnostic and the
    separator. *)
Lemma process_file_cases (file_path : string) (loaded : result json) :
  let base := PosixPath.basename file_path in
  (exists printed info line,
      process_file file_path loaded
      = ((processing_line base :: printed) ++ [line; separator_line base],
         Processed info line)%list)
  \/ (exists printed diagnostic,
      process_file file_path loaded
      = ((processing_line base :: printed) ++ [diagnostic; separator_line base],
         Skipped)%list
      /\ skip_diagnostic base diagnostic = true).
Proof.
  intros base. unfold process_file. fold base.
  destruct loaded as [v|e].
  - destruct v;
      try (right; exists [], (not_object_line base); split;
           [reflexivity|apply not_object_line_diagnostic]).
    destruct (extract base members) as [printed [[info line]|e]].
    + destruct (print_compact line) as [u|e].
      * left. now exists printed, info, line.
      * right. exists printed, (except_line base e). split;
          [reflexivity|apply except_line_diagnostic].
    + right. exists printed, (except_line base e). split;
        [reflexivity|apply except_line_diagnostic].
  - right. exists [], (except_line base e). split;
      [reflexivity|apply except_line_diagnostic].
Qed.

(** ** The loop *)

Lemma loop_body_eq (w : world) (printed data : list string) (file_path : string) :
  loop_body w (printed, data) file_path
  = ((printed ++ log_of w file_path)%list,
     (data ++ kept (outcome_of w file_path))%list).
Proof.
  unfold loop_body, log_of, outcome_of.
  destruct (process_file file_path (load w file_path)) as [log [|info line]]; simpl;
    [now rewrite app_nil_r|reflexivity].
Qed.

Lemma process_files_eq (w : world) (json_files : list string)
    (printed data : list string) :
  process_files w json_files (printed, data)
  = ((printed ++ flat_map (log_of w) json_files)%list,
     (data ++ collected w json_files)%list).
Proof.
  unfold process_files, collected.
  revert printed data.
  induction json_files as [|p rest IH]; intros printed data; cbn [fold_left flat_map].
  - now rewrite !app_nil_r.
  - rewrite loop_body_eq, IH. now rewrite <- !app_assoc.
Qed.

Lemma collected_app (w : world) (before after : list string) :
  collected w (before ++ after)%list
  = (collected w before ++ collected w after)%list.
Proof. unfold collected. apply flat_map_app. Qed.

Lemma collected_skipped (w : world) (file_path : string) :
  outcome_of w file_path = Skipped -> collected w [file_path] = [].
Proof. unfold collected; simpl. now intros ->. Qed.

Lemma skipped_plus_collected (w : world) (json_files : list string) :
  skipped_count w json_files + List.length (collected w json_files)
  = List.length json_files.
Proof.
  unfold skipped_count, collected.
  induction json_files as [|p rest IH]; simpl; [reflexivity|].
  rewrite length_app.
  destruct (outcome_of w p); simpl; lia.
Qed.

(** ** The script after discovery *)

Lemma script_eq (w : world) (json_files : list string) :
  json_files <> [] ->
  script w json_files
  = let data := collected w json_files in
    let printed :=
      (found_line (List.length json_files) :: flat_map (log_of w) json_files
       ++ [complete_line (List.length data)])%list in
    match data, open_output w with
    | [], _ =>
        {| console := printed; output_file := output_before w; status := ExitSuccess |}
    | _ :: _, Raise e =>
        {| console := printed; output_file := output_before w; status := Fatal e |}
    | _ :: _, Ok _ =>
        match save w data with
        | (sofar, Raise e) =>
            {| console := printed;
               output_file := Some (truncated w sofar);
               status := Fatal e |}
        | (sofar, Ok _) =>
            {| console := (printed ++ [saved_line])%list;
               output_file := Some sofar;
               status := ExitSuccess |}
        end
    end.
Proof.
  intros Hne. unfold script.
  destruct json_files as [|p rest]; [congruence|].
  rewrite process_files_eq. cbv zeta. rewrite app_nil_l.
  destruct (collected w (p :: rest)); [reflexivity|].
  destruct (open_output w); reflexivity.
Qed.

Lemma script_output_file (w : world) (json_files : list string) :
  output_file (script w json_files)
  = match collected w json_files, open_output w with
    | _ :: _, Ok _ =>
        match save w (collected w json_files) with
        | (sofar, Raise _) => Some (truncated w sofar)
        | (sofar, Ok _) => Some sofar
        end
    | _, _ => output_before w
    end.
Proof.
  destruct json_files as [|p rest]; [reflexivity|].
  rewrite script_eq by discriminate. cbv zeta.
  destruct (collected w (p :: rest)); [reflexivity|].
  destruct (open_output w); [|reflexivity].
  now destruct (save w _) as [sofar [u|e]].
Qed.

Lemma script_status (w : world) (json_files : list string) :
  status (script w json_files)
  = match collected w json_files, open_output w with
    | _ :: _, Raise e => Fatal e
    | _ :: _, Ok _ =>
        match snd (save w (collected w json_files)) with
        | Raise e => Fatal e
        | Ok _ => ExitSuccess
        end
    | [], _ => ExitSuccess
    end.
Proof.
  destruct json_files as [|p rest]; [reflexivity|].
  rewrite script_eq by discriminate. cbv zeta.
  destruct (collected w (p :: rest)); [reflexivity|].
  destruct (open_output w); [|reflexivity].
  now destruct (save w _) as [sofar [u|e]].
Qed.

(** ** One file, by what its document holds *)

Lemma process_file_ok (file_path : string) (data : PyDict.t) (title : json) :
  let base := PosixPath.basename file_path in
  let ts := entries_of "treatments" data in
  let ins := entries_of "indications" data in
  title_of data = Ok title ->
  forallb entry_ok ts = true ->
  forallb entry_ok ins = true ->
  console_accepts (summary_line base title ts ins) = true ->
  process_file file_path (Ok (JObj data))
  = ((processing_line base :: warnings_of base data)
       ++ [summary_line base title ts ins; separator_line base],
     Processed {| policyTitle := title;
                  sourceFilename := base;
                  treatments := map stripped ts;
                  indications := map stripped ins |}
               (summary_line base title ts ins))%list.
Proof.
  intros base ts ins Ht Hts Hins Hprint.
  unfold process_file. fold base.
  rewrite (extract_ok base data title Ht Hts Hins).
  unfold print_compact. fold ts ins. now rewrite Hprint.
Qed.

(** A compact line the console cannot print: the generic clause reports the
    failed [print], and the line is not kept. *)
Lemma process_file_unprintable (file_path : string) (data : PyDict.t) (title : json) :
  let base := PosixPath.basename file_path in
  let ts := entries_of "treatments" data in
  let ins := entries_of "indications" data in
  title_of data = Ok title ->
  forallb entry_ok ts = true ->
  forallb entry_ok ins = true ->
  console_accepts (summary_line base title ts ins) = false ->
  process_file file_path (Ok (JObj data))
  = ((processing_line base :: warnings_of base data)
       ++ [unexpected_line base (UnicodeEncodeError (summary_line base title ts ins));
           separator_line base], Skipped)%list.
Proof.
  intros base ts ins Ht Hts Hins Hprint.
  unfold process_file. fold base.
  rewrite (extract_ok base data title Ht Hts Hins).
  unfold print_compact. fold ts ins. now rewrite Hprint.
Qed.

Lemma process_file_bad_title (file_path : string) (data : PyDict.t) (e : exn) :
  let base := PosixPath.basename file_path in
  title_of data = Raise e ->
  process_file file_path (Ok (JObj data))
  = ([processing_line base; except_line base e; separator_line base], Skipped).
Proof.
  intros base Ht. unfold process_file. fold base.
  now rewrite (extract_bad_title base data e Ht).
Qed.

Lemma process_file_bad_entries (file_path : string) (data : PyDict.t) (title : json) :
  let base := PosixPath.basename file_path in
  title_of data = Ok title ->
  forallb entry_ok (entries_of "treatments" data)
    && forallb entry_ok (entries_of "indications" data) = false ->
  exists e,
    process_file file_path (Ok (JObj data))
    = ((processing_line base :: warnings_of base data)
         ++ [unexpected_line base e; separator_line base], Skipped)%list
    /\ unexpected e = true.
Proof.
  intros base Ht Hbad. unfold process_file. fold base.
  destruct (extract_bad_entries base data title Ht Hbad) as (e & -> & He).
  exists e. now rewrite (except_line_unexpected base e He).
Qed.

(** A processed document had a title and nameable entries, and its record
    and line are the ones [process_file_ok] gives. *)
Lemma process_file_processed (file_path : string) (data : PyDict.t)
    (info : extracted) (line : string) :
  let base := PosixPath.basename file_path in
  let ts := entries_of "treatments" data in
  let ins := entries_of "indications" data in
  snd (process_file file_path (Ok (JObj data))) = Processed info line ->
  exists title,
    title_of data = Ok title
    /\ forallb entry_ok ts = true
    /\ forallb entry_ok ins = true
    /\ info = {| policyTitle := title;
                 sourceFilename := base;
                 treatments := map stripped ts;
                 indications := map stripped ins |}
    /\ line = summary_line base title ts ins.
Proof.
  intros base ts ins H.
  destruct (title_of data) as [title|e] eqn:Ht.
  - destruct (forallb entry_ok ts && forallb entry_ok ins) eqn:Hok.
    + apply andb_true_iff in Hok as [H1 H2].
      destruct (console_accepts (summary_line base title ts ins)) eqn:Hprint.
      * rewrite (process_file_ok file_path data title Ht H1 H2 Hprint) in H.
        simpl in H. inversion H; subst. now exists title.
      * rewrite (process_file_unprintable file_path data title Ht H1 H2 Hprint) in H.
        discriminate.
    + destruct (process_file_bad_entries file_path data title Ht Hok) as (e & He & _).
      rewrite He in H. discriminate.
  - rewrite (process_file_bad_title file_path data e Ht) in H. discriminate.
Qed.

(** The console printed the line of a processed document. *)
Lemma process_file_processed_printed (file_path : string) (loaded : result json)
    (info : extracted) (line : string) :
  snd (process_file file_path loaded) = Processed info line ->
  console_accepts line = true.
Proof.
  unfold process_file, print_compact.
  destruct loaded as [[| | | | | |data]|e]; try discriminate.
  destruct (extract _ data) as [printed [[info0 line0]|e]]; [|discriminate].
  destruct (console_accepts line0) eqn:Hprint; [|discriminate].
  simpl. intros H. now inversion H; subst.
Qed.

(** ** Further steps the claims rest on *)

Lemma filter_none_matches (names : list string) :
  (forall name, In name names -> matches_pattern name = false) ->
  filter matches_pattern names = [].
Proof.
  induction names as [|name rest IH]; simpl; intros H; [reflexivity|].
  rewrite (H name (or_introl eq_refl)). apply IH.
  intros n Hn. apply H. now right.
Qed.

Lemma append_nil_r (s : string) : s ++ "" = s.
Proof. induction s as [|c s IH]; simpl; [reflexivity|now rewrite IH]. Qed.

Lemma written_cons (line : string) (rest : list string) :
  written (line :: rest) = line ++ String "010" (written rest).
Proof.
  unfold written.
  destruct rest as [|next rest]; cbn [map String.concat].
  - reflexivity.
  - now rewrite append_assoc.
Qed.

(** ** The output file *)

Lemma written_app (before after : list string) :
  written (before ++ after) = written before ++ written after.
Proof.
  induction before as [|line rest IH]; [reflexivity|].
  cbn [app]. rewrite !written_cons, IH, append_assoc. reflexivity.
Qed.

Lemma written_snoc (before : list string) (line : string) :
  written (before ++ [line]) = written before ++ line ++ String "010" "".
Proof. rewrite written_app, written_cons. reflexivity. Qed.

(** The loop of writes, from any point: it accepts the lines up to the
    first write that raises. *)
Lemma write_lines_eq (w : world) (done lines : list string) :
  (exists u,
      write_lines w (written done) lines = (written (done ++ lines), Ok u)
      /\ forall before line after,
           lines = (before ++ line :: after)%list ->
           write_output w (written (done ++ before)) (line ++ String "010" "") = Ok tt)
  \/ (exists before line after e,
        lines = (before ++ line :: after)%list
        /\ write_lines w (written done) lines = (written (done ++ before), Raise e)
        /\ (forall earlier l later,
              before = (earlier ++ l :: later)%list ->
              write_output w (written (done ++ earlier)) (l ++ String "010" "") = Ok tt)
        /\ write_output w (written (done ++ before)) (line ++ String "010" "") = Raise e).
Proof.
  revert done. induction lines as [|line rest IH]; intros done.
  - left. exists tt. rewrite app_nil_r. split; [reflexivity|].
    intros [|? ?] ? ? H; discriminate H.
  - cbn [write_lines].
    destruct (write_output w (written done) (line ++ String "010" "")) as [[]|e] eqn:Hw.
    + rewrite <- written_snoc.
      destruct (IH (done ++ [line])%list)
        as [(u & Hrest & Hall)|(before & l & after & e & -> & Hrest & Hall & Hfail)].
      * left. exists u. rewrite <- app_assoc in Hrest. split; [exact Hrest|].
        intros [|b before] l after H; inversion H; subst.
        -- now rewrite app_nil_r.
        -- specialize (Hall before l after eq_refl).
           now rewrite <- app_assoc in Hall.
      * right. exists (line :: before), l, after, e.
        rewrite <- !app_assoc in *. repeat split; try assumption.
        intros [|b earlier] l0 later H; inversion H; subst.
        -- now rewrite app_nil_r.
        -- specialize (Hall earlier l0 later eq_refl).
           now rewrite <- app_assoc in Hall.
    + right. exists [], line, rest, e. rewrite app_nil_r.
      repeat split; try assumption.
      intros [|? ?] ? ? H; discriminate H.
Qed.

(** What the [with] block does, in terms of the environment. *)
Lemma save_cases (w : world) (lines : list string) :
  (output_accepts w lines /\ save w lines = (written lines, Ok tt))
  \/ (exists sofar e, output_fails w lines sofar e /\ save w lines = (sofar, Raise e)).
Proof.
  unfold save.
  pose proof (write_lines_eq w [] lines) as H.
  change (written []) with "" in H. cbn [app] in H.
  destruct H as [(u & Hw & Hall)|(before & line & after & e & -> & Hw & Hall & Hfail)];
    rewrite Hw.
  - destruct (close_output w (written lines)) as [[]|e] eqn:Hc.
    + left. split; [split; [exact Hall|exact Hc]|reflexivity].
    + right. exists (written lines), e. split; [|reflexivity].
      right. repeat split; assumption.
  - right. destruct (close_output w (written before)) as [[]|e'] eqn:Hc.
    + exists (written before), e. split; [|reflexivity].
      left. exists before, line, after, e.
      repeat split; try assumption. right. now split.
    + exists (written before), e'. split; [|reflexivity].
      left. exists before, line, after, e.
      repeat split; try assumption. now left.
Qed.

Lemma output_accepts_not_fails (w : world) (lines : list string)
    (sofar : string) (e : exn) :
  output_accepts w lines -> ~ output_fails w lines sofar e.
Proof.
  intros [Hall Hclose]
    [(before & line & after & raised & Hsplit & _ & _ & Hfail & _)|(_ & _ & Hfail)].
  - rewrite (Hall before line after Hsplit) in Hfail. discriminate.
  - rewrite Hclose in Hfail. discriminate.
Qed.

Lemma write_lines_all (w : world) (done lines : list string) :
  (forall before line after,
      lines = (before ++ line :: after)%list ->
      write_output w (written (done ++ before)) (line ++ String "010" "") = Ok tt) ->
  write_lines w (written done) lines = (written (done ++ lines), Ok tt).
Proof.
  revert done. induction lines as [|line rest IH]; intros done Hall.
  - now rewrite app_nil_r.
  - cbn [write_lines].
    pose proof (Hall [] line rest eq_refl) as Hfirst.
    rewrite app_nil_r in Hfirst. rewrite Hfirst, <- written_snoc.
    rewrite (IH (done ++ [line])%list); [now rewrite <- app_assoc|].
    intros before l after ->. rewrite <- app_assoc.
    exact (Hall (line :: before) l after eq_refl).
Qed.

Lemma write_lines_stops (w : world) (done before : list string)
    (line : string) (after : list string) (e : exn) :
  (forall earlier l later,
      before = (earlier ++ l :: later)%list ->
      write_output w (written (done ++ earlier)) (l ++ String "010" "") = Ok tt) ->
  write_output w (written (done ++ before)) (line ++ String "010" "") = Raise e ->
  write_lines w (written done) (before ++ line :: after)
  = (written (done ++ before), Raise e).
Proof.
  revert done. induction before as [|b before IH]; intros done Hall Hfail.
  - rewrite app_nil_r in *. cbn [app write_lines]. now rewrite Hfail.
  - cbn [app write_lines].
    pose proof (Hall [] b before eq_refl) as Hfirst.
    rewrite app_nil_r in Hfirst. rewrite Hfirst, <- written_snoc.
    rewrite (IH (done ++ [b])%list); [now rewrite <- app_assoc| |].
    + intros earlier l later ->. rewrite <- app_assoc.
      exact (Hall (b :: earlier) l later eq_refl).
    + now rewrite <- app_assoc.
Qed.

(** The [with] block raises [e] after [sofar] exactly when the environment
    fails it there. *)
Lemma save_fails_iff (w : world) (lines : list string) (sofar : string) (e : exn) :
  save w lines = (sofar, Raise e) <-> output_fails w lines sofar e.
Proof.
  split.
  - intros Hsave.
    destruct (save_cases w lines) as [[_ H]|(sofar' & e' & Hfails & H)];
      rewrite H in Hsave; inversion Hsave; now subst.
  - unfold save.
    intros [(before & line & after & raised & -> & -> & Hall & Hfail & Hclose)
           |(-> & Hall & Hclose)].
    + pose proof (write_lines_stops w [] before line after raised) as H.
      change (written []) with "" in H. cbn [app] in H.
      rewrite (H Hall Hfail).
      destruct Hclose as [->|[-> ->]]; reflexivity.
    + pose proof (write_lines_all w [] lines) as H.
      change (written []) with "" in H. cbn [app] in H.
      now rewrite (H Hall), Hclose.
Qed.

(** How a run that found files ends, in terms of the environment. *)
Lemma script_cases (w : world) (json_files : list string) :
  json_files <> [] ->
  let lines := collected w json_files in
  let printed :=
    (found_line (List.length json_files) :: flat_map (log_of w) json_files
     ++ [complete_line (List.length lines)])%list in
  (lines = []
   /\ script w json_files
      = {| console := printed; output_file := output_before w; status := ExitSuccess |})
  \/ (lines <> []
      /\ exists e,
           open_output w = Raise e
           /\ script w json_files
              = {| console := printed; output_file := output_before w;
                   status := Fatal e |})
  \/ (lines <> []
      /\ open_output w = Ok tt
      /\ output_accepts w lines
      /\ script w json_files
         = {| console := (printed ++ [saved_line])%list;
              output_file := Some (written lines);
              status := ExitSuccess |})
  \/ (lines <> []
      /\ open_output w = Ok tt
      /\ exists sofar e,
           output_fails w lines sofar e
           /\ script w json_files
              = {| console := printed; output_file := Some (truncated w sofar);
                   status := Fatal e |}).
Proof.
  intros Hfound lines printed.
  rewrite (script_eq w json_files Hfound). cbv zeta. fold lines. fold printed.
  destruct lines as [|line rest] eqn:Hlines; [now left|].
  right. destruct (open_output w) as [[]|e].
  - right.
    destruct (save_cases w (line :: rest)) as [[Hacc ->]|(sofar & e & Hfails & ->)].
    + left. split; [discriminate|]. split; [reflexivity|].
      split; [exact Hacc|reflexivity].
    + right. split; [discriminate|]. split; [reflexivity|]. now exists sofar, e.
  - left. split; [discriminate|]. now exists e.
Qed.

Lemma entries_of_list (field : string) (data : PyDict.t) (items : list json) :
  PyDict.lookup field data = Some (JArr items) -> entries_of field data = items.
Proof. unfold entries_of, PyDict.get. now intros ->. Qed.



Lemma forallb_entry_ok_not_dict (items : list json) (t : json) :
  In t items -> is_dict t = false -> forallb entry_ok items = false.
Proof.
  intros Hin Ht.
  destruct (forallb entry_ok items) eqn:H; [|reflexivity].
  rewrite forallb_forall in H.
  now rewrite (entry_ok_is_dict t (H t Hin)) in Ht.
Qed.

Lemma process_file_log (file_path : string) (data : PyDict.t) (title : json) :
  let base := PosixPath.basename file_path in
  title_of data = Ok title ->
  exists final,
    fst (process_file file_path (Ok (JObj data)))
    = ((processing_line base :: warnings_of base data)
         ++ [final; separator_line base])%list.
Proof.
  intros base Ht.
  destruct (forallb entry_ok (entries_of "treatments" data)
            && forallb entry_ok (entries_of "indications" data)) eqn:Hok.
  - apply andb_true_iff in Hok as [H1 H2].
    destruct (console_accepts
                (summary_line base title (entries_of "treatments" data)
                   (entries_of "indications" data))) eqn:Hprint.
    + rewrite (process_file_ok file_path data title Ht H1 H2 Hprint). now eexists.
    + rewrite (process_file_unprintable file_path data title Ht H1 H2 Hprint).
      now eexists.
  - destruct (process_file_bad_entries file_path data title Ht Hok) as (e & -> & _).
    now eexists.
Qed.


(** ** The claims *)

(** C1, as amended. A source directory that is missing or unreadable is no
    error: discovery finds nothing, and the run prints the no-files line and
    ends successfully, writing nothing. A run is fatal only through the
    output file, and only when at least one file was processed: the file
    cannot be opened for writing, or it opens and then a write to it or its
    closing raises. The error comes after all processing: the console holds
    the log of every discovered file and the completion line, and no saved
    line. When the file could not be opened it is left as it was; when it
    opened, it holds what the environment kept of the text written before
    the failure. *)
Theorem only_the_output_file_can_be_fatal (w : world) :
  let json_files := glob (source_dir w) in
  let lines := collected w json_files in
  (source_dir w = DirMissing \/ source_dir w = DirUnreadable ->
   run w = {| console := [no_files_line];
              output_file := output_before w;
              status := ExitSuccess |})
  /\ (forall e : exn,
        status (run w) = Fatal e
        <-> lines <> []
            /\ (open_output w = Raise e
                \/ (open_output w = Ok tt
                    /\ exists sofar, output_fails w lines sofar e)))
  /\ (forall e : exn,
        status (run w) = Fatal e ->
        console (run w)
        = (found_line (List.length json_files) :: flat_map (log_of w) json_files
             ++ [complete_line (List.length lines)])%list
        /\ (open_output w = Raise e -> output_file (run w) = output_before w)
        /\ (open_output w = Ok tt ->
            exists sofar,
              output_fails w lines sofar e
              /\ output_file (run w) = Some (truncated w sofar))).
Proof.
  intros json_files lines. unfold run. fold json_files.
  split; [unfold json_files; now intros [-> | ->]|].
  assert (Hd : json_files = [] \/ json_files <> []).
  { unfold json_files. destruct (glob (source_dir w)); [now left|right; discriminate]. }
  destruct Hd as [Hnone|Hfound].
  { unfold lines. rewrite Hnone. split.
    - intros e. split; [discriminate|]. now intros [H _].
    - intros e H. discriminate H. }
  destruct (script_cases w json_files Hfound)
    as [[Hnil ->]
       |[(Hne & e0 & Hopen & ->)
        |[(Hne & Hopen & Hacc & ->)
         |(Hne & Hopen & sofar0 & e0 & Hfails & ->)]]];
    cbn [status console output_file].
  - split.
    + intros e. split; [discriminate|]. intros [H _]. now elim H.
    + intros e H. discriminate H.
  - split.
    + intros e. split.
      * intros H. inversion H; subst. split; [exact Hne|now left].
      * intros [_ [H|[H _]]]; rewrite Hopen in H; inversion H; now subst.
    + intros e H. inversion H; subst. split; [reflexivity|].
      split; [reflexivity|]. intros H0. rewrite Hopen in H0. discriminate.
  - split.
    + intros e. split; [discriminate|].
      intros [_ [H|[_ (sofar & H)]]].
      * rewrite Hopen in H. discriminate.
      * now elim (output_accepts_not_fails w lines sofar e Hacc).
    + intros e H. discriminate H.
  - split.
    + intros e. split.
      * intros H. inversion H; subst. split; [exact Hne|].
        right. split; [exact Hopen|now exists sofar0].
      * intros [_ [H|[_ (sofar & H)]]].
        -- rewrite Hopen in H. discriminate.
        -- apply save_fails_iff in H. apply save_fails_iff in Hfails.
           unfold lines in H. rewrite Hfails in H. now inversion H.
    + intros e H. inversion H; subst. split; [reflexivity|].
      split; [intros H0; rewrite Hopen in H0; discriminate|].
      intros _. now exists sofar0.
Qed.

(** C2. For [sample.json] holding the specification's sample document, the
    turn of the loop prints the processing line, the compact line and the
    separator, and the compact line it keeps for the output file is exactly
    [sample: Test Policy Treatments: [Surgery]; Indications: [Diabetes]];
    the record behind it has lost the [id] of the treatment. *)
Theorem sample_compact_line :
  process_file sample_path (Ok sample_json)
  = (["--- Processing: sample.json ---";
      "sample: Test Policy Treatments: [Surgery]; Indications: [Diabetes]";
      "-------------------------------"],
     Processed {| policyTitle := JStr "Test Policy";
                  sourceFilename := "sample.json";
                  treatments := [JObj [("name", JStr "Surgery")]];
                  indications := [JObj [("name", JStr "Diabetes")]] |}
               "sample: Test Policy Treatments: [Surgery]; Indications: [Diabetes]").
Proof.
  pose proof (process_file_ok sample_path
                [("policyMetadata", JObj [("policyTitle", JStr "Test Policy")]);
                 ("treatments", JArr [JObj [("name", JStr "Surgery"); ("id", JStr "X1")]]);
                 ("indications", JArr [JObj [("name", JStr "Diabetes")]])]
                (JStr "Test Policy") eq_refl eq_refl eq_refl eq_refl) as H.
  exact H.
Qed.

(** C3, as amended. The lines kept by the loop are the compact lines of the
    processed files, one each, in discovery order. When there is at least
    one, the output file can be opened for writing, and every write to it
    and its closing succeed, the run leaves [policies_compact.txt] holding
    exactly these lines, each followed by a newline, whatever the file held
    before. When the file opens and a write or the closing raises, the run
    is fatal and the file holds what the environment kept of the text
    written before the failure. When no file was processed the output file
    is left as it was. *)
Theorem output_file_lists_the_processed_files (w : world) :
  let json_files := glob (source_dir w) in
  let lines := collected w json_files in
  (forall printed : list string,
      snd (process_files w json_files (printed, [])) = lines)
  /\ (lines <> [] ->
      open_output w = Ok tt ->
      output_accepts w lines ->
      output_file (run w) = Some (written lines)
      /\ status (run w) = ExitSuccess)
  /\ (lines <> [] ->
      open_output w = Ok tt ->
      forall (sofar : string) (e : exn),
        output_fails w lines sofar e ->
        output_file (run w) = Some (truncated w sofar)
        /\ status (run w) = Fatal e)
  /\ (lines = [] -> output_file (run w) = output_before w)
  /\ written [] = ""
  /\ (forall (line : string) (rest : list string),
        written (line :: rest) = line ++ String "010" (written rest)).
Proof.
  intros json_files lines. unfold run. fold json_files.
  split; [intros printed; now rewrite process_files_eq|].
  assert (Hok : open_output w = Ok tt ->
                forall sofar r, save w lines = (sofar, r) ->
                lines <> [] ->
                output_file (script w json_files)
                = Some (match r with Ok _ => sofar | Raise _ => truncated w sofar end)
                /\ status (script w json_files)
                   = match r with Ok _ => ExitSuccess | Raise e => Fatal e end).
  { intros Hopen sofar r Hsave Hne.
    rewrite script_output_file, script_status. fold lines.
    destruct lines; [congruence|]. rewrite Hopen, Hsave.
    now destruct r. }
  split; [|split; [|split; [|split]]].
  - intros Hne Hopen Hacc.
    destruct (save_cases w lines) as [[_ Hsave]|(sofar & e & Hfails & _)].
    + exact (Hok Hopen _ _ Hsave Hne).
    + now elim (output_accepts_not_fails w lines sofar e Hacc).
  - intros Hne Hopen sofar e Hfails.
    apply save_fails_iff in Hfails. exact (Hok Hopen _ _ Hfails Hne).
  - intros Hnil. rewrite script_output_file. fold lines. now rewrite Hnil.
  - reflexivity.
  - apply written_cons.
Qed.

(** C4. Every discovered file has exactly one outcome: its turn of the loop
    either ends with a [Skipping <file>: ...] diagnostic and keeps no line,
    or ends with its compact line and keeps that one line. So the lines in
    [all_extracted_data] after the loop are those of the processed files,
    and the number of skipped files plus the number of kept lines is the
    number of discovered files. *)
Theorem skipped_and_processed_partition_the_files
    (w : world) (json_files : list string) (printed : list string) :
  Forall (fun file_path =>
            let base := PosixPath.basename file_path in
            (exists before info line,
                process_file file_path (load w file_path)
                = ((processing_line base :: before) ++ [line; separator_line base],
                   Processed info line)%list
                /\ kept (outcome_of w file_path) = [line])
            \/ (exists before diagnostic,
                process_file file_path (load w file_path)
                = ((processing_line base :: before)
                     ++ [diagnostic; separator_line base], Skipped)%list
                /\ skip_diagnostic base diagnostic = true
                /\ kept (outcome_of w file_path) = []))
         json_files
  /\ snd (process_files w json_files (printed, [])) = collected w json_files
  /\ skipped_count w json_files
     + List.length (snd (process_files w json_files (printed, [])))
     = List.length json_files.
Proof.
  split; [|split].
  - apply Forall_forall. intros file_path _. cbv zeta.
    destruct (process_file_cases file_path (load w file_path))
      as [(before & info & line & H)|(before & diagnostic & H & Hd)].
    + left. exists before, info, line. split; [exact H|].
      unfold outcome_of. now rewrite H.
    + right. exists before, diagnostic. repeat split; [exact H|exact Hd|].
      unfold outcome_of. now rewrite H.
  - now rewrite process_files_eq.
  - rewrite process_files_eq. apply skipped_plus_collected.
Qed.

(** C5. A file whose parsed root is not an object (an array, a string, a
    number, a boolean or null) is skipped with the root diagnostic between
    the processing line and the separator; it keeps no line, and the lines
    collected and the output file are what they are without that file. *)
Theorem non_object_root_is_skipped
    (w : world) (file_path : string) (v : json) :
  load w file_path = Ok v ->
  is_dict v = false ->
  let base := PosixPath.basename file_path in
  process_file file_path (load w file_path)
  = ([processing_line base;
      "Skipping " ++ base ++ ": Root element is not a JSON object (dictionary).";
      separator_line base], Skipped)
  /\ forall before after : list string,
       collected w (before ++ file_path :: after)
       = (collected w before ++ collected w after)%list
       /\ output_file (script w (before ++ file_path :: after))
          = output_file (script w (before ++ after)).
Proof.
  intros Hload Hv base.
  assert (Hp : process_file file_path (load w file_path)
               = ([processing_line base; not_object_line base; separator_line base],
                  Skipped)).
  { rewrite Hload. unfold process_file. fold base.
    destruct v; try reflexivity. discriminate. }
  split; [exact Hp|].
  intros before after.
  assert (Hc : collected w (before ++ file_path :: after)
               = (collected w before ++ collected w after)%list).
  { change (file_path :: after) with ([file_path] ++ after)%list.
    rewrite !collected_app, collected_skipped; [reflexivity|].
    unfold outcome_of. now rewrite Hp. }
  split; [exact Hc|].
  now rewrite !script_output_file, Hc, collected_app.
Qed.

(** C6. The three [pop] calls never fail on an object, whether or not it
    holds [keywords], [codes] or [id]; the object they leave holds none of
    the three, and is left as it is by a second round. Every treatment and
    indication of the record behind an emitted summary is such an object. *)
Theorem stripped_entries_hold_no_verbose_keys :
  (forall d : PyDict.t,
      strip_entry (JObj d) = Ok (JObj (strip_dict d))
      /\ PyDict.lookup "keywords" (strip_dict d) = None
      /\ PyDict.lookup "codes" (strip_dict d) = None
      /\ PyDict.lookup "id" (strip_dict d) = None
      /\ strip_entry (JObj (strip_dict d)) = Ok (JObj (strip_dict d)))
  /\ (forall (file_path : string) (data : PyDict.t) (info : extracted) (line : string),
        snd (process_file file_path (Ok (JObj data))) = Processed info line ->
        Forall (fun t => exists d,
                    t = JObj d
                    /\ PyDict.lookup "keywords" d = None
                    /\ PyDict.lookup "codes" d = None
                    /\ PyDict.lookup "id" d = None
                    /\ strip_entry t = Ok t)
               (treatments info ++ indications info)%list).
Proof.
  assert (Hstrip : forall d : PyDict.t,
             strip_entry (JObj (strip_dict d)) = Ok (JObj (strip_dict d))).
  { intros d. now rewrite strip_entry_dict, strip_dict_idempotent. }
  split.
  - intros d. destruct (strip_dict_lookup d) as (Hk & Hc & Hi).
    split; [apply strip_entry_dict|].
    repeat (split; [assumption|]). apply Hstrip.
  - intros file_path data info line H.
    destruct (process_file_processed file_path data info line H)
      as (title & _ & Hts & Hins & -> & _).
    cbn [treatments indications]. rewrite <- map_app.
    apply Forall_forall. intros t Hin.
    apply in_map_iff in Hin as (t0 & <- & Hin0).
    assert (Hd : is_dict t0 = true).
    { apply entry_ok_is_dict.
      apply in_app_or in Hin0 as [Hin0|Hin0];
        [exact (proj1 (forallb_forall _ _) Hts _ Hin0)
        |exact (proj1 (forallb_forall _ _) Hins _ Hin0)]. }
    destruct t0 as [| | | | | |d]; try discriminate. simpl stripped.
    exists (strip_dict d). destruct (strip_dict_lookup d) as (Hk & Hc & Hi).
    split; [reflexivity|]. repeat (split; [assumption|]). apply Hstrip.
Qed.


(** C8. When the source directory holds no entry that matches the pattern,
    discovery finds zero files; the run prints the single line
    [No files found matching pattern: premera_policies_abstracted/*.json],
    ends successfully, and leaves the output file as it was: none is
    written. *)
Theorem no_matching_file_ends_the_run (w : world) (names : list string) :
  source_dir w = DirEntries names ->
  (forall name, In name names -> matches_pattern name = false) ->
  List.length (glob (source_dir w)) = 0
  /\ run w
     = {| console :=
            ["No files found matching pattern: premera_policies_abstracted/*.json"];
          output_file := output_before w;
          status := ExitSuccess |}.
Proof.
  intros Hdir Hnone. unfold run.
  rewrite Hdir. unfold glob. rewrite (filter_none_matches names Hnone).
  split; reflexivity.
Qed.

(** C9. A file whose [treatments] or [indications] list holds an entry that
    is not an object is skipped as a whole: its turn ends with the
    [An unexpected error occurred] diagnostic and keeps no line, and the
    loop goes on, so that the files after it are processed as usual. *)
Theorem non_object_entry_skips_the_file
    (w : world) (file_path field : string) (data : PyDict.t)
    (items : list json) (t : json) :
  load w file_path = Ok (JObj data) ->
  field = "treatments" \/ field = "indications" ->
  PyDict.lookup field data = Some (JArr items) ->
  In t items ->
  is_dict t = false ->
  let base := PosixPath.basename file_path in
  (exists before e,
      process_file file_path (load w file_path)
      = ((processing_line base :: before)
           ++ [("Skipping " ++ base ++ ": An unexpected error occurred - "
                  ++ format_exn e)%string;
               separator_line base], Skipped)%list)
  /\ forall (earlier later printed kept_lines : list string),
       process_files w (earlier ++ file_path :: later) (printed, kept_lines)
       = ((printed ++ flat_map (log_of w) earlier ++ log_of w file_path
             ++ flat_map (log_of w) later)%list,
          (kept_lines ++ collected w earlier ++ collected w later)%list).
Proof.
  intros Hload Hfield Hlookup Hin Ht base.
  pose proof (entries_of_list field data items Hlookup) as Hitems.
  pose proof (forallb_entry_ok_not_dict items t Hin Ht) as Hbad.
  assert (Hp : exists before e,
             process_file file_path (load w file_path)
             = ((processing_line base :: before)
                  ++ [unexpected_line base e; separator_line base], Skipped)%list).
  { rewrite Hload.
    destruct (title_of data) as [title|e] eqn:Htitle.
    - assert (Hboth : forallb entry_ok (entries_of "treatments" data)
                      && forallb entry_ok (entries_of "indications" data) = false).
      { apply andb_false_iff.
        destruct Hfield as [-> | ->]; [left|right]; now rewrite Hitems. }
      destruct (process_file_bad_entries file_path data title Htitle Hboth)
        as (e & He & _).
      now exists (warnings_of base data), e.
    - exists [], e. rewrite (process_file_bad_title file_path data e Htitle).
      fold base. rewrite except_line_unexpected; [reflexivity|].
      apply (extract_raises_unexpected base data [] e).
      now apply extract_bad_title. }
  split; [exact Hp|].
  intros earlier later printed kept_lines.
  rewrite process_files_eq.
  change (file_path :: later) with ([file_path] ++ later)%list.
  rewrite !flat_map_app, !collected_app, collected_skipped.
  - simpl. now rewrite app_nil_r.
  - destruct Hp as (before & e & Hp). unfold outcome_of. now rewrite Hp.
Qed.

(** C10. A file whose [policyMetadata] is present and not an object is
    skipped by the generic handler, which reports the failed [get]; no title
    is defaulted and no line is kept. When [policyMetadata] is absent the
    title is [N/A], and a processed file shows it in its record and line.
    When it is an object, the title is its [policyTitle], or [N/A] if it has
    none. *)
Theorem non_object_policy_metadata_skips_the_file
    (file_path : string) (data : PyDict.t) :
  let base := PosixPath.basename file_path in
  (forall v : json,
      PyDict.lookup "policyMetadata" data = Some v ->
      is_dict v = false ->
      process_file file_path (Ok (JObj data))
      = ([processing_line base;
          "Skipping " ++ base ++ ": An unexpected error occurred - "
            ++ str_raised (AttributeError v "get");
          separator_line base], Skipped))
  /\ (PyDict.lookup "policyMetadata" data = None ->
      title_of data = Ok (JStr "N/A")
      /\ forall (info : extracted) (line : string),
           snd (process_file file_path (Ok (JObj data))) = Processed info line ->
           policyTitle info = JStr "N/A"
           /\ line = fst (PosixPath.splitext base) ++ ": N/A Treatments: ["
                       ++ String.concat ", " (map name_of (entries_of "treatments" data))
                       ++ "]; Indications: ["
                       ++ String.concat ", " (map name_of (entries_of "indications" data))
                       ++ "]")
  /\ (forall d : PyDict.t,
        PyDict.lookup "policyMetadata" data = Some (JObj d) ->
        title_of data = Ok (PyDict.get "policyTitle" (JStr "N/A") d)).
Proof.
  intros base. split; [|split].
  2:{ intros Hlookup.
      assert (Htitle : title_of data = Ok (JStr "N/A")).
      { unfold title_of, PyDict.get. now rewrite Hlookup. }
      split; [exact Htitle|].
      intros info line H.
      destruct (process_file_processed file_path data info line H)
        as (title & Htitle' & _ & _ & -> & ->).
      rewrite Htitle in Htitle'. inversion Htitle'; subst title.
      split; reflexivity. }
  2:{ intros d Hlookup. unfold title_of.
      replace (PyDict.get "policyMetadata" (JObj []) data) with (JObj d);
        [reflexivity|].
      unfold PyDict.get. now rewrite Hlookup. }
  - intros v Hlookup Hv.
    assert (Htitle : title_of data = Raise (AttributeError v "get")).
    { unfold title_of, PyDict.get. rewrite Hlookup.
      destruct v; try reflexivity. discriminate. }
    now rewrite (process_file_bad_title file_path data _ Htitle).
Qed.

(** ** More on strings and paths *)

Lemma length_append (a b : string) :
  String.length (a ++ b) = String.length a + String.length b.
Proof. induction a as [|x a IH]; simpl; [reflexivity|now rewrite IH]. Qed.

Lemma substring_all (s : string) : substring 0 (String.length s) s = s.
Proof. induction s as [|x s IH]; simpl; [reflexivity|now rewrite IH]. Qed.

Lemma substring_split (n : nat) (s : string) :
  n <= String.length s ->
  substring 0 n s ++ substring n (String.length s - n) s = s.
Proof.
  revert n; induction s as [|x s IH]; intros n Hn.
  - destruct n; reflexivity.
  - destruct n as [|n]; simpl.
    + now rewrite substring_all.
    + simpl in Hn. rewrite IH by lia. reflexivity.
Qed.

Lemma substring_append_left (a b : string) :
  substring 0 (String.length a) (a ++ b) = a.
Proof.
  induction a as [|x a IH]; simpl; [now destruct b|now rewrite IH].
Qed.

Lemma substring_append_right (a b : string) :
  substring (String.length a) (String.length b) (a ++ b) = b.
Proof.
  induction a as [|x a IH]; simpl; [apply substring_all|exact IH].
Qed.

Lemma rfind_bounds (c : ascii) (s : string) :
  (-1 <= PyStr.rfind c s < Z.of_nat (String.length s))%Z.
Proof.
  induction s as [|x s IH]; simpl PyStr.rfind; simpl String.length; [lia|].
  destruct (0 <=? PyStr.rfind c s)%Z eqn:E; [lia|].
  destruct (Ascii.eqb x c); lia.
Qed.

Lemma rfind_append (c : ascii) (a b : string) :
  PyStr.rfind c (a ++ b)
  = if (0 <=? PyStr.rfind c b)%Z
    then (Z.of_nat (String.length a) + PyStr.rfind c b)%Z
    else PyStr.rfind c a.
Proof.
  induction a as [|x a IH].
  - simpl. destruct (0 <=? PyStr.rfind c b)%Z eqn:E; [reflexivity|].
    pose proof (rfind_bounds c b). apply Z.leb_gt in E. lia.
  - cbn [append PyStr.rfind String.length]. rewrite IH.
    destruct (0 <=? PyStr.rfind c b)%Z eqn:E.
    + apply Z.leb_le in E.
      replace (0 <=? Z.of_nat (String.length a) + PyStr.rfind c b)%Z with true
        by (symmetry; apply Z.leb_le; lia).
      lia.
    + reflexivity.
Qed.

(** The last [c] of [s] splits it into what comes before, and [c] followed
    by a rest that holds no [c]. *)
Lemma rfind_split (c : ascii) (s : string) :
  (0 <= PyStr.rfind c s)%Z ->
  exists a b,
    s = a ++ String c b
    /\ String.length a = Z.to_nat (PyStr.rfind c s)
    /\ PyStr.rfind c b = (-1)%Z.
Proof.
  induction s as [|x s IH]; simpl PyStr.rfind; [lia|].
  destruct (0 <=? PyStr.rfind c s)%Z eqn:E.
  - apply Z.leb_le in E. intros _.
    destruct (IH E) as (a & b & -> & Hlen & Hb).
    exists (String x a), b. repeat split; [|exact Hb].
    simpl. rewrite Hlen. lia.
  - apply Z.leb_gt in E. pose proof (rfind_bounds c s).
    destruct (Ascii.eqb x c) eqn:Ex; [|lia]. intros _.
    apply Ascii.eqb_eq in Ex; subst x.
    exists "", s. repeat split. lia.
Qed.

Lemma startswith_rfind (c : ascii) (s : string) :
  PyStr.rfind c s = (-1)%Z -> PyStr.startswith (String c "") s = false.
Proof.
  unfold PyStr.startswith. destruct s as [|x s]; [reflexivity|].
  simpl PyStr.rfind. intros H. simpl.
  destruct (ascii_dec c x) as [->|Hne]; [|reflexivity].
  destruct (0 <=? PyStr.rfind x s)%Z eqn:E.
  - apply Z.leb_le in E. lia.
  - rewrite Ascii.eqb_refl in H. discriminate.
Qed.

Lemma endswith_split (suffix s : string) :
  PyStr.endswith suffix s = true -> exists stem, s = stem ++ suffix.
Proof.
  unfold PyStr.endswith. intros H.
  apply andb_true_iff in H as [Hlen Heq].
  apply Nat.leb_le in Hlen. apply String.eqb_eq in Heq.
  exists (substring 0 (String.length s - String.length suffix) s).
  assert (Hn : String.length s - String.length suffix <= String.length s) by lia.
  pose proof (substring_split _ s Hn) as Hs.
  replace (String.length s - (String.length s - String.length suffix))
    with (String.length suffix) in Hs by lia.
  rewrite Heq in Hs. now symmetry.
Qed.

Lemma pop_filter (key : string) (d : PyDict.t) :
  PyDict.pop key d = filter (fun member => negb (String.eqb key (fst member))) d.
Proof.
  induction d as [|[k v] rest IH]; simpl; [reflexivity|].
  destruct (String.eqb key k); simpl; now rewrite IH.
Qed.

Lemma filter_twice {A : Type} (f g : A -> bool) (l : list A) :
  filter f (filter g l) = filter (fun x => g x && f x) l.
Proof.
  induction l as [|x l IH]; simpl; [reflexivity|].
  destruct (g x); simpl; [destruct (f x)|]; now rewrite IH.
Qed.

Lemma strip_dict_filter (d : PyDict.t) :
  strip_dict d = filter (fun member => negb (verbose_key (fst member))) d.
Proof.
  unfold strip_dict. rewrite !pop_filter, !filter_twice.
  apply filter_ext. intros [k v]. unfold verbose_key. cbn [fst].
  destruct (String.eqb "keywords" k), (String.eqb "codes" k), (String.eqb "id" k);
    reflexivity.
Qed.

Lemma lookup_filter (keep : string -> bool) (key : string) (d : PyDict.t) :
  keep key = true ->
  PyDict.lookup key (filter (fun member => keep (fst member)) d)
  = PyDict.lookup key d.
Proof.
  intros Hkeep. induction d as [|[k v] rest IH]; simpl; [reflexivity|].
  destruct (String.eqb key k) eqn:E.
  - apply String.eqb_eq in E; subst k. rewrite Hkeep. simpl.
    now rewrite String.eqb_refl.
  - destruct (keep k); simpl; [now rewrite E|exact IH].
Qed.

Lemma forallb_entry_ok_bad_name (items : list json) (d : PyDict.t) (v : json) :
  In (JObj d) items ->
  PyDict.lookup "name" d = Some v ->
  (forall s, v <> JStr s) ->
  forallb entry_ok items = false.
Proof.
  intros Hin Hname Hv.
  destruct (forallb entry_ok items) eqn:H; [|reflexivity].
  rewrite forallb_forall in H. specialize (H _ Hin).
  simpl in H. rewrite Hname in H.
  destruct v; try discriminate. now elim (Hv s).
Qed.

Lemma bad_field_spoils_both (field : string) (data : PyDict.t) :
  field = "treatments" \/ field = "indications" ->
  forallb entry_ok (entries_of field data) = false ->
  forallb entry_ok (entries_of "treatments" data)
    && forallb entry_ok (entries_of "indications" data) = false.
Proof.
  intros [-> | ->] H; rewrite H; [reflexivity|apply andb_false_r].
Qed.

(** A file with an object root and a spoiled field is skipped by the
    generic clause, whatever its title. *)
Lemma process_file_spoiled (file_path : string) (data : PyDict.t) :
  let base := PosixPath.basename file_path in
  forallb entry_ok (entries_of "treatments" data)
    && forallb entry_ok (entries_of "indications" data) = false ->
  exists before e,
    process_file file_path (Ok (JObj data))
    = ((processing_line base :: before)
         ++ [unexpected_line base e; separator_line base], Skipped)%list
    /\ unexpected e = true.
Proof.
  intros base Hbad.
  destruct (title_of data) as [title|e] eqn:Htitle.
  - destruct (process_file_bad_entries file_path data title Htitle Hbad)
      as (e & He & Hu).
    now exists (warnings_of base data), e.
  - assert (Hu : unexpected e = true).
    { apply (extract_raises_unexpected base data [] e).
      now apply extract_bad_title. }
    exists [], e. rewrite (process_file_bad_title file_path data e Htitle).
    fold base. now rewrite (except_line_unexpected base e Hu).
Qed.

Lemma process_files_around (w : world) (file_path : string)
    (earlier later printed kept_lines : list string) :
  outcome_of w file_path = Skipped ->
  process_files w (earlier ++ file_path :: later) (printed, kept_lines)
  = ((printed ++ flat_map (log_of w) earlier ++ log_of w file_path
        ++ flat_map (log_of w) later)%list,
     (kept_lines ++ collected w earlier ++ collected w later)%list).
Proof.
  intros Hskip. rewrite process_files_eq.
  change (file_path :: later) with ([file_path] ++ later)%list.
  rewrite !flat_map_app, !collected_app, (collected_skipped w file_path Hskip).
  simpl. now rewrite app_nil_r.
Qed.

(** ** Further properties *)

(** X1. A file that cannot be opened or parsed is skipped by the [except]
    clause of its exception: invalid JSON is reported with the parser's
    message, a vanished file as not found, anything else as an unexpected
    error. Its log is the processing line, that diagnostic and the
    separator; it keeps no line, and the loop goes on with the files after
    it. *)
Theorem load_failure_is_skipped
    (w : world) (file_path : string) (e : exn) :
  load w file_path = Raise e ->
  let base := PosixPath.basename file_path in
  process_file file_path (load w file_path)
  = ([processing_line base;
      match e with
      | JSONDecodeError msg =>
          "Skipping " ++ base ++ ": Invalid JSON structure - " ++ msg
      | FileNotFoundError =>
          "Skipping " ++ base ++ ": File not found."
      | _ =>
          "Skipping " ++ base ++ ": An unexpected error occurred - " ++ format_exn e
      end;
      separator_line base], Skipped)
  /\ forall (earlier later printed kept_lines : list string),
       process_files w (earlier ++ file_path :: later) (printed, kept_lines)
       = ((printed ++ flat_map (log_of w) earlier ++ log_of w file_path
             ++ flat_map (log_of w) later)%list,
          (kept_lines ++ collected w earlier ++ collected w later)%list).
Proof.
  intros Hload base.
  assert (Hp : process_file file_path (load w file_path)
               = ([processing_line base; except_line base e; separator_line base],
                  Skipped))
    by now rewrite Hload.
  split.
  - rewrite Hp. now destruct e.
  - intros earlier later printed kept_lines.
    apply process_files_around. unfold outcome_of. now rewrite Hp.
Qed.

(** X2. A file whose root is an object is processed exactly when a title is
    found ([policyMetadata] absent or an object), every entry of the
    treatments and indications is an object whose [name] is a string or
    absent, and the console can print the compact line. Its log is then the
    processing line, the warnings, the compact line and the separator; the
    record holds the stripped entries; and the compact line is the file
    stem, the title, and the names of the entries in order, joined by a
    comma and a space, with [N/A] for an entry that has no name. *)
Theorem processed_exactly_when_nameable (file_path : string) (data : PyDict.t) :
  let base := PosixPath.basename file_path in
  let ts := entries_of "treatments" data in
  let ins := entries_of "indications" data in
  ((exists info line,
       snd (process_file file_path (Ok (JObj data))) = Processed info line)
   <-> exists title,
         title_of data = Ok title
         /\ forallb entry_ok ts = true
         /\ forallb entry_ok ins = true
         /\ console_accepts
              (fst (PosixPath.splitext base) ++ ": " ++ format_value title
                 ++ " Treatments: [" ++ String.concat ", " (map name_of ts)
                 ++ "]; Indications: [" ++ String.concat ", " (map name_of ins)
                 ++ "]") = true)
  /\ (forall (info : extracted) (line : string),
        snd (process_file file_path (Ok (JObj data))) = Processed info line ->
        exists title,
          title_of data = Ok title
          /\ process_file file_path (Ok (JObj data))
             = ((processing_line base :: warnings_of base data)
                  ++ [line; separator_line base], Processed info line)%list
          /\ info = {| policyTitle := title;
                       sourceFilename := base;
                       treatments := map stripped ts;
                       indications := map stripped ins |}
          /\ line = fst (PosixPath.splitext base) ++ ": " ++ format_value title
                      ++ " Treatments: [" ++ String.concat ", " (map name_of ts)
                      ++ "]; Indications: [" ++ String.concat ", " (map name_of ins)
                      ++ "]"
          /\ console_accepts line = true
          /\ Forall (fun t =>
                       exists d,
                         t = JObj d
                         /\ match PyDict.lookup "name" d with
                            | None => name_of t = "N/A"
                            | Some v => v = JStr (name_of t)
                            end)
                    (ts ++ ins)%list).
Proof.
  intros base ts ins. split.
  - split.
    + intros (info & line & H).
      pose proof (process_file_processed_printed _ _ _ _ H) as Hprint.
      destruct (process_file_processed file_path data info line H)
        as (title & Ht & Hts & Hins & _ & Hline).
      exists title. rewrite Hline in Hprint. now repeat split.
    + intros (title & Ht & Hts & Hins & Hprint).
      rewrite (process_file_ok file_path data title Ht Hts Hins Hprint).
      now eexists; eexists.
  - intros info line H.
    pose proof (process_file_processed_printed _ _ _ _ H) as Hprint.
    destruct (process_file_processed file_path data info line H)
      as (title & Ht & Hts & Hins & -> & ->).
    exists title. split; [exact Ht|].
    split; [exact (process_file_ok file_path data title Ht Hts Hins Hprint)|].
    split; [reflexivity|]. split; [reflexivity|]. split; [exact Hprint|].
    apply Forall_forall. intros t Hin.
    assert (Hok : entry_ok t = true).
    { apply in_app_or in Hin as [Hin|Hin];
        [exact (proj1 (forallb_forall _ _) Hts _ Hin)
        |exact (proj1 (forallb_forall _ _) Hins _ Hin)]. }
    destruct t as [| | | | | |d]; try discriminate.
    exists d. split; [reflexivity|]. simpl in *.
    destruct (PyDict.lookup "name" d) as [[]|]; try discriminate; reflexivity.
Qed.

(** X3. An entry whose [name] is present and not a string (a number, null,
    a list, ...) makes [join] fail: the whole file is skipped with the
    unexpected-error diagnostic and keeps no line. *)
Theorem non_string_name_skips_the_file
    (file_path field : string) (data d : PyDict.t) (items : list json) (v : json) :
  field = "treatments" \/ field = "indications" ->
  PyDict.lookup field data = Some (JArr items) ->
  In (JObj d) items ->
  PyDict.lookup "name" d = Some v ->
  (forall s, v <> JStr s) ->
  let base := PosixPath.basename file_path in
  exists before e,
    process_file file_path (Ok (JObj data))
    = ((processing_line base :: before)
         ++ [("Skipping " ++ base ++ ": An unexpected error occurred - "
                ++ format_exn e)%string;
             separator_line base], Skipped)%list.
Proof.
  intros Hfield Hlookup Hin Hname Hv base.
  pose proof (entries_of_list field data items Hlookup) as Hitems.
  assert (Hbad : forallb entry_ok (entries_of field data) = false).
  { rewrite Hitems. exact (forallb_entry_ok_bad_name items d v Hin Hname Hv). }
  destruct (process_file_spoiled file_path data
              (bad_field_spoils_both field data Hfield Hbad))
    as (before & e & H & _).
  now exists before, e.
Qed.

(** X4. Stripping takes out the members named [keywords], [codes] and [id]
    and nothing else: every other member of an entry stays, with its value
    and in its place. The record of a processed file holds as many
    treatments and indications as the document, each stripped this way. *)
Theorem stripping_keeps_the_other_members :
  (forall d : PyDict.t,
      strip_dict d = filter (fun member => negb (verbose_key (fst member))) d
      /\ forall key : string,
           verbose_key key = false ->
           PyDict.lookup key (strip_dict d) = PyDict.lookup key d)
  /\ (forall (file_path : string) (data : PyDict.t) (info : extracted) (line : string),
        snd (process_file file_path (Ok (JObj data))) = Processed info line ->
        treatments info = map stripped (entries_of "treatments" data)
        /\ indications info = map stripped (entries_of "indications" data)
        /\ List.length (treatments info)
           = List.length (entries_of "treatments" data)
        /\ List.length (indications info)
           = List.length (entries_of "indications" data)).
Proof.
  split.
  - intros d. split; [apply strip_dict_filter|].
    intros key Hkey. rewrite strip_dict_filter.
    apply (lookup_filter (fun k => negb (verbose_key k))). now rewrite Hkey.
  - intros file_path data info line H.
    destruct (process_file_processed file_path data info line H)
      as (title & _ & _ & _ & -> & _).
    cbn [treatments indications]. rewrite !length_map. now repeat split.
Qed.

Lemma join_source_directory (name : string) :
  PyStr.rfind "/" name = (-1)%Z ->
  PosixPath.join source_directory name = "premera_policies_abstracted/" ++ name.
Proof.
  intros H. unfold PosixPath.join.
  now rewrite (startswith_rfind "/" name H).
Qed.

Lemma basename_in_source_directory (name : string) :
  PyStr.rfind "/" name = (-1)%Z ->
  PosixPath.basename ("premera_policies_abstracted/" ++ name) = name.
Proof.
  intros H. unfold PosixPath.basename, PyStr.slice_from.
  rewrite rfind_append, H, length_append.
  change (Z.to_nat _) with (String.length "premera_policies_abstracted/").
  replace (String.length "premera_policies_abstracted/" + String.length name
           - String.length "premera_policies_abstracted/")
    with (String.length name) by lia.
  apply substring_append_right.
Qed.

Lemma all_chars_not_started (c : ascii) (stem rest : string) :
  stem <> "" ->
  PyStr.startswith (String c "") (stem ++ rest) = false ->
  PyStr.all_chars c stem = false.
Proof.
  intros Hne H. destruct stem as [|x stem]; [congruence|].
  unfold PyStr.startswith in H. simpl in H. simpl.
  destruct (ascii_dec c x) as [->|Hx].
  - now destruct (stem ++ rest).
  - apply Ascii.eqb_neq in Hx. rewrite Ascii.eqb_sym in Hx. now rewrite Hx.
Qed.

Lemma splitext_json (stem : string) :
  PyStr.rfind "/" (stem ++ ".json") = (-1)%Z ->
  PyStr.all_chars "." stem = false ->
  PosixPath.splitext (stem ++ ".json") = (stem, ".json").
Proof.
  intros Hsep Hdots. unfold PosixPath.splitext.
  rewrite Hsep, rfind_append. change (PyStr.rfind "." ".json") with 0%Z.
  cbn [Z.leb Z.compare]. rewrite Z.add_0_r.
  replace (-1 <? Z.of_nat (String.length stem))%Z with true
    by (symmetry; apply Z.ltb_lt; lia).
  unfold PyStr.slice, PyStr.slice_to, PyStr.slice_from.
  rewrite Nat2Z.id. change (Z.to_nat (-1 + 1)) with 0. rewrite Nat.sub_0_r.
  rewrite substring_append_left, Hdots, length_append.
  replace (String.length stem + String.length ".json" - String.length stem)
    with (String.length ".json") by lia.
  now rewrite substring_append_right.
Qed.

(** X5. Let the directory entries be plain names (no slash in them, as
    [os.scandir] gives them). Discovery yields, in directory order, the path
    [premera_policies_abstracted/<name>] of each entry that ends in [.json]
    and does not start with a dot. For each such path the base file name is
    the entry itself, it is [<stem>.json] for some [stem], [splitext] gives
    back that stem, and the compact line of the file, when it is processed,
    starts with [<stem>: ]. *)
Theorem discovered_paths_have_json_stems (names : list string) :
  (forall name, In name names -> PyStr.rfind "/" name = (-1)%Z) ->
  glob (DirEntries names)
  = map (fun name => "premera_policies_abstracted/" ++ name)
        (filter matches_pattern names)
  /\ forall file_path : string,
       In file_path (glob (DirEntries names)) ->
       let base := PosixPath.basename file_path in
       In base names
       /\ PyStr.startswith "." base = false
       /\ file_path = "premera_policies_abstracted/" ++ base
       /\ exists stem,
            base = stem ++ ".json"
            /\ PosixPath.splitext base = (stem, ".json")
            /\ forall (loaded : result json) (info : extracted) (line : string),
                 snd (process_file file_path loaded) = Processed info line ->
                 PyStr.startswith (stem ++ ": ") line = true.
Proof.
  intros Hplain.
  assert (Hglob : glob (DirEntries names)
                  = map (fun name => "premera_policies_abstracted/" ++ name)
                        (filter matches_pattern names)).
  { unfold glob. apply map_ext_in. intros name Hin.
    apply filter_In in Hin as [Hin _]. now apply join_source_directory, Hplain. }
  split; [exact Hglob|].
  intros file_path Hin base. rewrite Hglob in Hin.
  apply in_map_iff in Hin as (name & <- & Hin).
  apply filter_In in Hin as [Hin Hmatch].
  pose proof (Hplain name Hin) as Hsep.
  assert (Hbase : base = name)
    by (unfold base; now apply basename_in_source_directory).
  rewrite Hbase. clear base Hbase.
  unfold matches_pattern in Hmatch.
  apply andb_true_iff in Hmatch as [Hvisible Hjson].
  apply negb_true_iff in Hvisible.
  destruct (endswith_split ".json" name Hjson) as (stem & ->).
  repeat split; try assumption.
  exists stem.
  assert (Hstem : stem <> "").
  { intros ->. discriminate Hvisible. }
  pose proof (splitext_json stem Hsep
                (all_chars_not_started "." stem ".json" Hstem Hvisible)) as Hsplit.
  repeat split; try assumption.
  intros loaded info line H.
  destruct loaded as [[| | | | | |data]|e]; try discriminate H.
  destruct (process_file_processed _ data info line H)
    as (title & _ & _ & _ & _ & ->).
  unfold summary_line.
  rewrite (basename_in_source_directory _ Hsep), Hsplit. cbn [fst].
  replace (stem ++ ": " ++ format_value title
             ++ " Treatments: ["
             ++ String.concat ", " (map name_of (entries_of "treatments" data))
             ++ "]; Indications: ["
             ++ String.concat ", " (map name_of (entries_of "indications" data))
             ++ "]")
    with ((stem ++ ": ") ++ format_value title
             ++ " Treatments: ["
             ++ String.concat ", " (map name_of (entries_of "treatments" data))
             ++ "]; Indications: ["
             ++ String.concat ", " (map name_of (entries_of "indications" data))
             ++ "]")
    by now rewrite append_assoc.
  apply startswith_append.
Qed.

(** X6. [splitext] loses nothing: the root and the extension it returns put
    together are the path again. The extension is empty, or it is a dot
    followed by characters among which there is no dot and no slash. *)
Theorem splitext_round_trip (p : string) :
  fst (PosixPath.splitext p) ++ snd (PosixPath.splitext p) = p
  /\ (snd (PosixPath.splitext p) = ""
      \/ exists rest,
           snd (PosixPath.splitext p) = String "." rest
           /\ PyStr.rfind "." rest = (-1)%Z
           /\ PyStr.rfind "/" rest = (-1)%Z).
Proof.
  unfold PosixPath.splitext.
  destruct (PyStr.rfind "/" p <? PyStr.rfind "." p)%Z eqn:Hlt;
    [|split; [apply append_nil_r|now left]].
  destruct (PyStr.all_chars "." _);
    [split; [apply append_nil_r|now left]|].
  apply Z.ltb_lt in Hlt.
  pose proof (rfind_bounds "/" p) as Hsep.
  assert (Hdot : (0 <= PyStr.rfind "." p)%Z) by lia.
  destruct (rfind_split "." p Hdot) as (a & b & Hp & Hlen & Hb).
  cbn [fst snd]. unfold PyStr.slice_to, PyStr.slice_from.
  rewrite <- Hlen. clear Hlen Hdot Hsep. subst p.
  rewrite substring_append_left, length_append.
  replace (String.length a + String.length (String "." b) - String.length a)
    with (String.length (String "." b)) by lia.
  rewrite substring_append_right.
  split; [reflexivity|]. right. exists b. repeat split; [exact Hb|].
  rewrite rfind_append in Hlt.
  pose proof (rfind_bounds "." (a ++ String "." b)) as Hdot.
  rewrite length_append in Hdot.
  assert (Hsame : PyStr.rfind "." (a ++ String "." b)
                  = Z.of_nat (String.length a)).
  { rewrite rfind_append. simpl PyStr.rfind. rewrite Hb. simpl. lia. }
  rewrite Hsame in Hlt. clear Hdot Hsame.
  pose proof (rfind_bounds "/" (String "." b)) as Hb1.
  destruct (0 <=? PyStr.rfind "/" (String "." b))%Z eqn:E.
  - apply Z.leb_le in E. lia.
  - apply Z.leb_gt in E. simpl PyStr.rfind in E.
    pose proof (rfind_bounds "/" b) as Hb2.
    destruct (0 <=? PyStr.rfind "/" b)%Z eqn:E2; [|apply Z.leb_gt in E2; lia].
    apply Z.leb_le in E2. lia.
Qed.

Lemma collected_all_skipped (w : world) (json_files : list string) :
  (forall p, In p json_files -> outcome_of w p = Skipped) ->
  collected w json_files = [].
Proof.
  unfold collected.
  induction json_files as [|p rest IH]; intros H; simpl; [reflexivity|].
  rewrite (H p (or_introl eq_refl)). simpl. apply IH.
  intros q Hq. apply H. now right.
Qed.

Lemma collected_processed (w : world) (json_files : list string) :
  collected w (filter (processed w) json_files) = collected w json_files
  /\ List.length (filter (processed w) json_files)
     = List.length (collected w json_files).
Proof.
  unfold collected, processed.
  induction json_files as [|p rest [IH1 IH2]]; simpl; [now split|].
  destruct (outcome_of w p) eqn:E; simpl.
  - now split.
  - rewrite E. simpl. now rewrite IH1, IH2.
Qed.

Lemma times_length (c : ascii) (n : nat) : String.length (PyStr.times c n) = n.
Proof. induction n as [|n IH]; simpl; [reflexivity|now rewrite IH]. Qed.

Lemma times_all_chars (c : ascii) (n : nat) :
  PyStr.all_chars c (PyStr.times c n) = true.
Proof.
  induction n as [|n IH]; simpl; [reflexivity|].
  now rewrite Ascii.eqb_refl, IH.
Qed.

(** The warning of a field: printed just when the field is present and not
    a list. *)
Lemma get_list_warning (field base_filename : string) (data : PyDict.t) :
  let warned := negb (is_list (PyDict.get field (JArr []) data)) in
  fst (get_list field base_filename data)
  = (if warned then [warning_line field base_filename] else [])
  /\ (warned = true ->
      exists v, PyDict.lookup field data = Some v /\ is_list v = false).
Proof.
  unfold get_list, PyDict.get.
  destruct (PyDict.lookup field data) as [v|]; [|split; [reflexivity|discriminate]].
  destruct v; (split; [reflexivity|]); simpl; try discriminate;
    intros _; eexists; split; reflexivity.
Qed.


(** X8. When files are found and every one of them is skipped, the run
    still ends successfully: it reports zero valid files, prints no saved
    line, and does not touch the output file, not even to open it. *)
Theorem all_files_skipped_writes_nothing (w : world) :
  let json_files := glob (source_dir w) in
  json_files <> [] ->
  (forall p, In p json_files -> outcome_of w p = Skipped) ->
  run w
  = {| console :=
         (found_line (List.length json_files)
            :: flat_map (log_of w) json_files
            ++ [String "010" "Processing complete. Extracted data from 0 valid files."])%list;
       output_file := output_before w;
       status := ExitSuccess |}.
Proof.
  intros json_files Hfound Hskipped.
  unfold run. fold json_files. rewrite (script_eq w json_files Hfound).
  cbv zeta. now rewrite (collected_all_skipped w json_files Hskipped).
Qed.

(** X9. Skipped files leave no trace in the result: the lines collected,
    the output file and the exit status of the script over a list of files
    are those of the script over the processed files alone, and there are as
    many collected lines as processed files. *)
Theorem skipped_files_leave_no_trace (w : world) (json_files : list string) :
  collected w (filter (processed w) json_files) = collected w json_files
  /\ List.length (collected w json_files)
     = List.length (filter (processed w) json_files)
  /\ output_file (script w json_files)
     = output_file (script w (filter (processed w) json_files))
  /\ status (script w json_files)
     = status (script w (filter (processed w) json_files)).
Proof.
  destruct (collected_processed w json_files) as [Hsame Hlen].
  split; [exact Hsame|]. split; [now symmetry|].
  now rewrite !script_output_file, !script_status, Hsame.
Qed.

(** X10. The log of a file, whatever became of it, is the processing line,
    at most the treatments warning and then the indications warning, one
    final line, and a separator made of as many dashes as the base file name
    has characters plus twenty. A warning is printed only for a field of an
    object root that is present and not a list. *)
Theorem log_of_a_file_has_one_shape (file_path : string) (loaded : result json) :
  let base := PosixPath.basename file_path in
  String.length (separator_line base) = String.length base + 20
  /\ PyStr.all_chars "-" (separator_line base) = true
  /\ exists (warned_t warned_i : bool) (final : string),
       fst (process_file file_path loaded)
       = ((processing_line base
             :: (if warned_t then [warning_line "treatments" base] else [])
                ++ (if warned_i then [warning_line "indications" base] else []))
            ++ [final; separator_line base])%list
       /\ (warned_t = true ->
           exists data v,
             loaded = Ok (JObj data)
             /\ PyDict.lookup "treatments" data = Some v /\ is_list v = false)
       /\ (warned_i = true ->
           exists data v,
             loaded = Ok (JObj data)
             /\ PyDict.lookup "indications" data = Some v /\ is_list v = false).
Proof.
  intros base.
  split; [apply times_length|]. split; [apply times_all_chars|].
  assert (Hplain : forall final,
             fst (process_file file_path loaded)
             = [processing_line base; final; separator_line base] ->
             exists (warned_t warned_i : bool) (final : string),
               fst (process_file file_path loaded)
               = ((processing_line base
                     :: (if warned_t then [warning_line "treatments" base] else [])
                        ++ (if warned_i then [warning_line "indications" base] else []))
                    ++ [final; separator_line base])%list
               /\ (warned_t = true ->
                   exists data v,
                     loaded = Ok (JObj data)
                     /\ PyDict.lookup "treatments" data = Some v /\ is_list v = false)
               /\ (warned_i = true ->
                   exists data v,
                     loaded = Ok (JObj data)
                     /\ PyDict.lookup "indications" data = Some v
                     /\ is_list v = false)).
  { intros final H. exists false, false, final.
    split; [exact H|]. split; discriminate. }
  destruct loaded as [v|e]; [|now apply (Hplain (except_line base e))].
  destruct v as [| | | | | |data];
    try now apply (Hplain (not_object_line base)).
  destruct (title_of data) as [title|e] eqn:Htitle.
  - destruct (process_file_log file_path data title Htitle) as (final & Hlog).
    fold base in Hlog. unfold warnings_of in Hlog.
    destruct (get_list_warning "treatments" base data) as [Ht Ht'].
    destruct (get_list_warning "indications" base data) as [Hi Hi'].
    cbv zeta in Ht, Ht', Hi, Hi'. rewrite Ht, Hi in Hlog.
    eexists; eexists; exists final. split; [exact Hlog|].
    split; intros Hw;
      [destruct (Ht' Hw) as (v & Hv)|destruct (Hi' Hw) as (v & Hv)];
      now exists data, v.
  - apply (Hplain (except_line base e)).
    now rewrite (process_file_bad_title file_path data e Htitle).
Qed.

End Script.

(** ** The claims at concrete inputs *)

(** C1 fails as stated: with the source directory missing, the run is not
    fatal. It prints the no-files line and ends successfully. *)
Lemma missing_directory_is_not_fatal :
  run unasked_value cpython_raised ascii_console missing_dir_world
  = {| console :=
         ["No files found matching pattern: premera_policies_abstracted/*.json"];
       output_file := None;
       status := ExitSuccess |}.
Proof. reflexivity. Qed.

Lemma only_the_output_file_can_be_fatal_witness :
  collected unasked_value cpython_raised ascii_console locked_world
    (glob (source_dir locked_world)) = [sample_line]
  /\ status (run unasked_value cpython_raised ascii_console locked_world)
     = Fatal (OtherError "[Errno 13] Permission denied: 'policies_compact.txt'")
  /\ status (run unasked_value cpython_raised ascii_console full_disk_world)
     = Fatal (OtherError "[Errno 28] No space left on device").
Proof.
  split; [reflexivity|]. split.
  - apply (proj1 (proj2 (only_the_output_file_can_be_fatal
                           unasked_value cpython_raised ascii_console locked_world))).
    split; [intros H; vm_compute in H; discriminate H|left; reflexivity].
  - apply (proj1 (proj2 (only_the_output_file_can_be_fatal
                           unasked_value cpython_raised ascii_console full_disk_world))).
    split; [intros H; vm_compute in H; discriminate H|].
    right. split; [reflexivity|].
    eexists. right. split; [reflexivity|].
    split; [intros before line after _|]; reflexivity.
Defined.

(** C3 fails as stated: [sample.json] is processed, yet with the output file
    impossible to open the run is fatal and no output file holds its line. *)
Lemma unwritable_output_file_gets_no_line :
  collected unasked_value cpython_raised ascii_console locked_world
    (glob (source_dir locked_world)) = [sample_line]
  /\ output_file (run unasked_value cpython_raised ascii_console locked_world) = None
  /\ status (run unasked_value cpython_raised ascii_console locked_world)
     = Fatal (OtherError "[Errno 13] Permission denied: 'policies_compact.txt'").
Proof. repeat split. Qed.

Lemma output_file_lists_the_processed_files_witness :
  output_before sample_world = Some "old"
  /\ (output_file (run unasked_value cpython_raised ascii_console sample_world)
      = Some ("sample: Test Policy Treatments: [Surgery]; Indications: [Diabetes]"
                ++ String "010" "")
      /\ status (run unasked_value cpython_raised ascii_console sample_world)
         = ExitSuccess)
  /\ output_file (run unasked_value cpython_raised ascii_console full_disk_world)
     = Some ""
  /\ status (run unasked_value cpython_raised ascii_console full_disk_world)
     = Fatal (OtherError "[Errno 28] No space left on device").
Proof.
  split; [reflexivity|]. split.
  - apply (proj1 (proj2 (output_file_lists_the_processed_files
                           unasked_value cpython_raised ascii_console sample_world))).
    + intros H; vm_compute in H; discriminate H.
    + reflexivity.
    + split; [intros before line after _|]; reflexivity.
  - apply (proj1 (proj2 (proj2 (output_file_lists_the_processed_files
                                  unasked_value cpython_raised ascii_console
                                  full_disk_world)))
             ltac:(intros H; vm_compute in H; discriminate H) eq_refl
             (written [sample_line])).
    right. split; [reflexivity|].
    split; [intros before line after _|]; reflexivity.
Defined.

Lemma non_object_root_is_skipped_witness :
  load array_root_world "premera_policies_abstracted/list.json" = Ok (JArr [JInt 1])
  /\ process_file unasked_value cpython_raised ascii_console
       "premera_policies_abstracted/list.json"
       (load array_root_world "premera_policies_abstracted/list.json")
     = (["--- Processing: list.json ---";
         "Skipping list.json: Root element is not a JSON object (dictionary).";
         "-----------------------------"], Skipped).
Proof.
  split; [reflexivity|].
  exact (proj1 (non_object_root_is_skipped unasked_value cpython_raised ascii_console
                  array_root_world "premera_policies_abstracted/list.json"
                  (JArr [JInt 1]) eq_refl eq_refl)).
Defined.

Lemma stripped_entries_hold_no_verbose_keys_witness :
  strip_entry (JObj [("name", JStr "Surgery"); ("id", JStr "X1")])
  = Ok (JObj [("name", JStr "Surgery")])
  /\ strip_entry (JObj [("name", JStr "Surgery")])
     = Ok (JObj [("name", JStr "Surgery")]).
Proof.
  pose proof (proj1 (stripped_entries_hold_no_verbose_keys
                       unasked_value cpython_raised ascii_console)
                [("name", JStr "Surgery"); ("id", JStr "X1")]) as H.
  exact (conj (proj1 H) (proj2 (proj2 (proj2 (proj2 H))))).
Defined.



Lemma no_matching_file_ends_the_run_witness :
  List.length (glob (source_dir unmatched_world)) = 0
  /\ run unasked_value cpython_raised ascii_console unmatched_world
     = {| console :=
            ["No files found matching pattern: premera_policies_abstracted/*.json"];
          output_file := Some "old";
          status := ExitSuccess |}.
Proof.
  apply (no_matching_file_ends_the_run unasked_value cpython_raised ascii_console
           unmatched_world ["notes.txt"; ".hidden.json"] eq_refl).
  intros name [<-|[<-|[]]]; reflexivity.
Defined.

Lemma non_object_entry_skips_the_file_witness :
  exists before e,
    process_file unasked_value cpython_raised ascii_console
      "premera_policies_abstracted/b.json"
      (load bad_indication_world "premera_policies_abstracted/b.json")
    = ((processing_line "b.json" :: before)
         ++ [("Skipping b.json: An unexpected error occurred - "
                ++ format_exn cpython_raised e)%string;
             separator_line "b.json"], Skipped)%list.
Proof.
  exact (proj1 (non_object_entry_skips_the_file unasked_value cpython_raised ascii_console
                  bad_indication_world "premera_policies_abstracted/b.json"
                  "indications"
                  [("treatments", JInt 5); ("indications", JArr [JStr "x"])]
                  [JStr "x"] (JStr "x")
                  eq_refl (or_intror eq_refl) eq_refl (or_introl eq_refl) eq_refl)).
Defined.

Lemma non_object_policy_metadata_skips_the_file_witness :
  process_file unasked_value cpython_raised ascii_console
    "premera_policies_abstracted/a.json" (Ok bad_metadata_json)
  = (["--- Processing: a.json ---";
      "Skipping a.json: An unexpected error occurred - 'str' object has no attribute 'get'";
      "--------------------------"], Skipped).
Proof.
  exact (proj1 (non_object_policy_metadata_skips_the_file
                  unasked_value cpython_raised ascii_console
                  "premera_policies_abstracted/a.json"
                  [("policyMetadata", JStr "x"); ("treatments", JInt 5)])
           (JStr "x") eq_refl eq_refl).
Defined.

(** ** The further properties at concrete inputs *)

Lemma load_failure_is_skipped_witness :
  load broken_json_world "premera_policies_abstracted/bad.json"
  = Raise (JSONDecodeError
             "Expecting property name enclosed in double quotes: line 1 column 2 (char 1)")
  /\ process_file unasked_value cpython_raised ascii_console
       "premera_policies_abstracted/bad.json"
       (load broken_json_world "premera_policies_abstracted/bad.json")
     = (["--- Processing: bad.json ---";
         "Skipping bad.json: Invalid JSON structure - Expecting property name enclosed in double quotes: line 1 column 2 (char 1)";
         "----------------------------"], Skipped).
Proof.
  split; [reflexivity|].
  exact (proj1 (load_failure_is_skipped unasked_value cpython_raised ascii_console
                  broken_json_world "premera_policies_abstracted/bad.json"
                  _ eq_refl)).
Defined.

Lemma processed_exactly_when_nameable_witness :
  snd (process_file unasked_value cpython_raised ascii_console
         "premera_policies_abstracted/x.json" (Ok nameless_json))
  = Processed {| policyTitle := JStr "N/A";
                 sourceFilename := "x.json";
                 treatments := [JObj [("dose", JInt 2)]; JObj [("name", JStr "Rest")]];
                 indications := [] |}
              "x: N/A Treatments: [N/A, Rest]; Indications: []"
  /\ exists info line,
       snd (process_file unasked_value cpython_raised ascii_console
              "premera_policies_abstracted/x.json" (Ok nameless_json))
       = Processed info line.
Proof.
  split; [reflexivity|].
  apply (proj1 (processed_exactly_when_nameable unasked_value cpython_raised ascii_console
                  "premera_policies_abstracted/x.json"
                  [("treatments",
                    JArr [JObj [("id", JStr "T1"); ("dose", JInt 2)];
                          JObj [("name", JStr "Rest")]])])).
  exists (JStr "N/A"). repeat split.
Defined.

Lemma non_string_name_skips_the_file_witness :
  exists before e,
    process_file unasked_value cpython_raised ascii_console
      "premera_policies_abstracted/n.json" (Ok numeric_name_json)
    = ((processing_line "n.json" :: before)
         ++ [("Skipping n.json: An unexpected error occurred - "
                ++ format_exn cpython_raised e)%string;
             separator_line "n.json"], Skipped)%list.
Proof.
  apply (non_string_name_skips_the_file unasked_value cpython_raised ascii_console
           "premera_policies_abstracted/n.json" "indications"
           [("indications", JArr [JObj [("name", JInt 7)]])]
           [("name", JInt 7)] [JObj [("name", JInt 7)]] (JInt 7)
           (or_intror eq_refl) eq_refl (or_introl eq_refl) eq_refl).
  intros s H. discriminate H.
Defined.

Lemma stripping_keeps_the_other_members_witness :
  strip_dict [("id", JStr "T1"); ("dose", JInt 2); ("codes", JArr []); ("name", JStr "Rest")]
  = [("dose", JInt 2); ("name", JStr "Rest")].
Proof.
  exact (proj1 (proj1 (stripping_keeps_the_other_members
                         unasked_value cpython_raised ascii_console)
                  [("id", JStr "T1"); ("dose", JInt 2); ("codes", JArr []);
                   ("name", JStr "Rest")])).
Defined.

Lemma discovered_paths_have_json_stems_witness :
  glob (source_dir mixed_world)
  = ["premera_policies_abstracted/gone.json";
     "premera_policies_abstracted/sample.json"].
Proof.
  assert (Hplain : forall name,
             In name ["gone.json"; "README.md"; "sample.json"] ->
             PyStr.rfind "/" name = (-1)%Z)
    by (intros name [<-|[<-|[<-|[]]]]; reflexivity).
  exact (proj1 (discovered_paths_have_json_stems unasked_value cpython_raised ascii_console
                  ["gone.json"; "README.md"; "sample.json"] Hplain)).
Defined.

Lemma splitext_round_trip_witness :
  PosixPath.splitext "archive.tar.json" = ("archive.tar", ".json")
  /\ "archive.tar" ++ ".json" = "archive.tar.json".
Proof.
  split; [reflexivity|].
  exact (proj1 (splitext_round_trip "archive.tar.json")).
Defined.


Lemma all_files_skipped_writes_nothing_witness :
  run unasked_value cpython_raised ascii_console broken_json_world
  = {| console :=
         [String.append "Found 1 files matching pattern. Processing..." (String "010" "");
          "--- Processing: bad.json ---";
          "Skipping bad.json: Invalid JSON structure - Expecting property name enclosed in double quotes: line 1 column 2 (char 1)";
          "----------------------------";
          String "010" "Processing complete. Extracted data from 0 valid files."];
       output_file := Some "old";
       status := ExitSuccess |}.
Proof.
  apply (all_files_skipped_writes_nothing unasked_value cpython_raised ascii_console
           broken_json_world).
  - intros H; vm_compute in H; discriminate H.
  - intros p _. reflexivity.
Defined.
